(** * SQL generation of the sqlite ORM layer

    A shallow embedding of

    - [src/generators/table-generator.ts]: [generateCreateTableSQL] and
      [generateVirtualTableSQL], the translation of a model definition into
      a [CREATE TABLE] / [CREATE VIRTUAL TABLE] statement, once as a
      function of the definition and once as a call on a heap that holds
      the definition object and the arrays the call pushes on;
    - [src/models/findAll.ts]: the query text and the bound parameters that
      [findAll] builds before it hands them to the driver.

    Conventions.  A JavaScript string is a [string]; its characters are
    8-bit code units.  String concatenation is written [+:+], list
    concatenation [++].  A JavaScript object that is iterated with
    [Object.entries] / [Object.keys] is the association list of its own
    enumerable properties in iteration order.  An optional property is an
    [option]; a property that is only tested for truthiness is a [bool].
    The helpers that the two files import from [generators/utils.js] and
    [utils/queryHelpers.js] are parameters. *)

From Stdlib Require Import String Ascii List Bool ZArith Lia DecimalString.
From stdpp Require Import base option list gmap strings.
Import ListNotations.

Local Open Scope string_scope.
Local Open Scope list_scope.

(** ** JavaScript values and primitives *)

(** [Number.isSafeInteger]: the integers up to 2^53 - 1 in magnitude.
    Each of them is a number of its own, and a template literal prints it
    in decimal, digit for digit. *)
Definition isSafeInteger (z : Z) : bool := (Z.abs z <=? 9007199254740991)%Z.

(** The characters of the text of a finite number: the digits, the
    point, and the exponent mark with its sign ([2.5], [1e+21], [5e-7]). *)
Definition isNumberChar (c : ascii) : bool :=
  match c with
  | "0" | "1" | "2" | "3" | "4" | "5" | "6" | "7" | "8" | "9"
  | "." | "e" | "+" | "-" => true
  | _ => false
  end%char.

Fixpoint isNumberText (s : string) : bool :=
  match s with
  | String c r => isNumberChar c && isNumberText r
  | EmptyString => true
  end.

(** Numbers.  A safe integer is given by its value.  Any other finite
    number, a fraction or a number beyond the safe integers, is given by
    its sign and by the text that the conversion to a string gives to its
    magnitude ([2.5], [1e+21]): that text follows the shortest round-trip
    rule of the language, which is not computed here.  [>=] and the
    template-literal conversion are the only operations used on
    numbers. *)
Inductive JsNumber : Type :=
| NumInt (z : Z) (safe : isSafeInteger z = true)
| NumNaN
| NumInfinity (negative : bool)
| NumFinite (negative : bool) (text : string) (wellFormed : isNumberText text = true).

(** The values that flow through [defaultValue] and through the entries of
    a [where] object. *)
Inductive JsValue : Type :=
| JsUndefined
| JsNull
| JsBoolean (b : bool)
| JsNumeric (n : JsNumber)
| JsString (s : string).

Definition isUndefined (v : JsValue) : bool :=
  match v with JsUndefined => true | _ => false end.

Definition isNull (v : JsValue) : bool :=
  match v with JsNull => true | _ => false end.

(** [n >= 0] *)
Definition geZero (n : JsNumber) : bool :=
  match n with
  | NumInt z _ => (0 <=? z)%Z
  | NumNaN => false
  | NumInfinity negative => negb negative
  | NumFinite negative _ _ => negb negative
  end.

(** [`${n}`] *)
Definition numberToString (n : JsNumber) : string :=
  match n with
  | NumInt z _ => NilZero.string_of_int (Z.to_int z)
  | NumNaN => "NaN"
  | NumInfinity negative => if negative then "-Infinity" else "Infinity"
  | NumFinite negative text _ => if negative then "-" +:+ text else text
  end.

(** Truthiness of an optional string property: [undefined] and [''] are
    falsy. *)
Definition truthy (o : option string) : bool :=
  match o with
  | Some s => negb (String.eqb s "")
  | None => false
  end.

(** [`${x}`] for an optional string property. *)
Definition template (o : option string) : string :=
  match o with
  | Some s => s
  | None => "undefined"
  end.

(** [Array.prototype.join] on an array of strings. *)
Definition join (sep : string) (l : list string) : string := String.concat sep l.

(** White space of [String.prototype.trim] among the 8-bit code units:
    TAB, LF, VT, FF, CR, SPACE and NBSP. *)
Definition isWhiteSpace (c : ascii) : bool :=
  let n := nat_of_ascii c in
  (((9 <=? n) && (n <=? 13)) || (n =? 32) || (n =? 160))%nat.

Fixpoint trimStart (s : string) : string :=
  match s with
  | String c r => if isWhiteSpace c then trimStart r else s
  | EmptyString => EmptyString
  end.

Fixpoint trimEnd (s : string) : string :=
  match s with
  | String c r =>
      match trimEnd r with
      | EmptyString => if isWhiteSpace c then EmptyString else String c EmptyString
      | r' => String c r'
      end
  | EmptyString => EmptyString
  end.

Definition trim (s : string) : string := trimEnd (trimStart s).

(** [a.filter(Boolean)] on an array of strings. *)
Definition filterBoolean (l : list string) : list string :=
  List.filter (fun s => negb (String.eqb s "")) l.

(** ** The model definition (the shape [Types.mts] gives it, as far as the
    generator reads it) *)

(** [unique] of an attribute: [boolean | string | { name }]. *)
Inductive UniqueSpec : Type :=
| UniqueFlag (b : bool)
| UniqueName (name : string)
| UniqueObject (name : option string).

(** A value that is tested with [Array.isArray] before its elements are
    read: an array of strings, or anything else. *)
Inductive JsFields : Type :=
| FieldsArray (l : list string)
| FieldsNotArray.

(** [references.fields] of a table-level foreign key: [string | string[]]. *)
Inductive RefFields : Type :=
| RefArray (l : list string)
| RefName (s : string).

(** [options.primaryKey]: [string | string[]]. *)
Inductive PrimaryKeyOption : Type :=
| PkName (s : string)
| PkColumns (cols : list string).

Module Generated.
Record t : Type := { expression : string; stored : bool }.
End Generated.

Module ColumnRef.
Record t : Type := { table : string; column : string }.
End ColumnRef.

Module Attr.
Record t : Type := {
  type : string;
  primaryKey : bool;
  autoIncrement : bool;
  allowNull : option bool;
  unique : option UniqueSpec;
  defaultValue : JsValue;
  check : option string;
  collate : option string;
  generated : option Generated.t;
  references : option ColumnRef.t;
  onDelete : option string;
  onUpdate : option string;
  deferrable : bool;
  deferred : bool
}.

(** [{ type }] with every other property absent. *)
Definition ofType (ty : string) : t :=
  {| type := ty; primaryKey := false; autoIncrement := false;
     allowNull := None; unique := None; defaultValue := JsUndefined;
     check := None; collate := None; generated := None;
     references := None; onDelete := None; onUpdate := None;
     deferrable := false; deferred := false |}.
End Attr.

Module FkRef.
Record t : Type := { table : string; fields : RefFields }.
End FkRef.

Module Fk.
Record t : Type := {
  fields : JsFields;
  references : option FkRef.t;
  onDelete : option string;
  onUpdate : option string;
  deferrable : bool;
  deferred : bool
}.
End Fk.

Module Constraints.
Record t : Type := {
  unique : option (list (string * JsFields));
  check : option (list (string * string));
  foreignKey : option (list (string * Fk.t))
}.

Definition empty : t := {| unique := None; check := None; foreignKey := None |}.
End Constraints.

Module Virtual.
(** [using_] is the property [using]. *)
Record t : Type := { using_ : option string; args : option (list string) }.
End Virtual.

Module Options.
Record t : Type := {
  primaryKey : option PrimaryKeyOption;
  constraints : option Constraints.t;
  strict : bool;
  withoutRowid : bool;
  temporary : bool;
  ifNotExists : bool;
  underscored : bool;
  virtual : option Virtual.t
}.

(** [{}] *)
Definition empty : t :=
  {| primaryKey := None; constraints := None; strict := false;
     withoutRowid := false; temporary := false; ifNotExists := false;
     underscored := false; virtual := None |}.
End Options.

Record ModelDefinition : Type := {
  tableName : string;
  attributes : list (string * Attr.t);
  options : option Options.t
}.

(** [def.options?.flag] for a flag that is only tested for truthiness. *)
Definition optionFlag (f : Options.t -> bool) (def : ModelDefinition) : bool :=
  match options def with
  | Some o => f o
  | None => false
  end.

(** [def.options?.p] for an optional property. *)
Definition optionProp {A : Type} (f : Options.t -> option A) (def : ModelDefinition) : option A :=
  match options def with
  | Some o => f o
  | None => None
  end.

(** Truthiness of [def.options?.primaryKey]: an array is truthy, a string
    is truthy unless it is empty. *)
Definition primaryKeyTruthy (def : ModelDefinition) : bool :=
  match optionProp Options.primaryKey def with
  | Some (PkName s) => negb (String.eqb s "")
  | Some (PkColumns _) => true
  | None => false
  end.

(** [typeof def.options.primaryKey === 'string'] *)
Definition primaryKeyIsString (def : ModelDefinition) : bool :=
  match optionProp Options.primaryKey def with
  | Some (PkName _) => true
  | _ => false
  end.

(** [def.attributes[name]?.primaryKey], truthiness. *)
Fixpoint attributePrimaryKey (attrs : list (string * Attr.t)) (name : string) : bool :=
  match attrs with
  | (n, a) :: rest => if String.eqb n name then Attr.primaryKey a else attributePrimaryKey rest name
  | [] => false
  end.

(** What a call does: it returns a string or throws. *)
Inductive Error : Type :=
| VirtualOptionsRequired.   (* new Error('Virtual table options are required') *)

Inductive Result : Type :=
| Returned (sql : string)
| Thrown (e : Error).

(** ** [findAll.ts] *)

Module FindAll.

(** The argument of [findAll]; [where_] is the property [where]. *)
Record Options : Type := {
  where_ : option (list (string * JsValue));
  order : option (list (string * string));
  limit : option JsNumber;
  offset : option JsNumber
}.

(** [{}], the default argument. *)
Definition noOptions : Options :=
  {| where_ := None; order := None; limit := None; offset := None |}.

(** [o?.[key]] on the own properties of [o]. *)
Fixpoint getProperty (o : list (string * JsValue)) (key : string) : JsValue :=
  match o with
  | (k, v) :: rest => if String.eqb k key then v else getProperty rest key
  | [] => JsUndefined
  end.

Section Query.

(** The helpers of [utils/queryHelpers.js]. *)
Variable safeGet : list (string * JsValue) -> string -> JsValue.
Variable convertValueForSQLite : JsValue -> JsValue.

(** Lines 21-22: the keys that pass the filter. *)
Definition whereKeys (w : list (string * JsValue)) : list string :=
  List.filter (fun key => negb (isUndefined (getProperty w key))) (map fst w).

(** Lines 23-30: the callback of [map], which also pushes on [values]. *)
Definition whereStep (w : list (string * JsValue))
    (acc : list string * list JsValue) (key : string) : list string * list JsValue :=
  let '(whereClauses, values) := acc in
  let value := convertValueForSQLite (safeGet w key) in
  if isNull value
  then (whereClauses ++ [key +:+ " IS NULL"], values)
  else (whereClauses ++ [key +:+ " = ?"], values ++ [value]).

(** Lines 20-35 on the pair ([sql], [values]). *)
Definition addWhere (options : Options) (st : string * list JsValue) : string * list JsValue :=
  let '(sql, values) := st in
  match where_ options with
  | Some w =>
      let '(whereClauses, values') := fold_left (whereStep w) (whereKeys w) ([], values) in
      if (0 <? length whereClauses)%nat
      then (sql +:+ " WHERE " +:+ join " AND " whereClauses, values')
      else (sql, values')
  | None => (sql, values)
  end.

(** Lines 38-40. *)
Definition orderClauses (o : list (string * string)) : list string :=
  map (fun '(col, dir) => col +:+ " " +:+ (if String.eqb dir "DESC" then "DESC" else "ASC"))
      (List.filter (fun '(col, _) => negb (String.eqb col "")) o).

(** Lines 37-45. *)
Definition addOrder (options : Options) (sql : string) : string :=
  match order options with
  | Some o =>
      if (0 <? length (orderClauses o))%nat
      then sql +:+ " ORDER BY " +:+ join ", " (orderClauses o)
      else sql
  | None => sql
  end.

(** Lines 47-49 and 51-53. *)
Definition addBound (keyword : string) (bound : option JsNumber) (sql : string) : string :=
  match bound with
  | Some n => if geZero n then sql +:+ keyword +:+ numberToString n else sql
  | None => sql
  end.

(** [sql] and [values] when the statement is prepared (line 56). *)
Definition findAllQuery (tableName : string) (options : Options) : string * list JsValue :=
  let '(sql, values) := addWhere options ("SELECT * FROM " +:+ tableName, []) in
  let sql := addOrder options sql in
  let sql := addBound " LIMIT " (limit options) sql in
  let sql := addBound " OFFSET " (offset options) sql in
  (sql, values).

(** [findAll] itself: [db.prepare(sql).all(...values)]; an error of the
    driver is logged and thrown again. *)
Definition findAll {Rows : Type} (db : string -> list JsValue -> Rows)
    (tableName : string) (options : Options) : Rows :=
  let '(sql, values) := findAllQuery tableName options in
  db sql values.

(** *** Notions used in the statements *)

(** The clause that the callback returns for one key. *)
Definition whereClause (w : list (string * JsValue)) (key : string) : string :=
  if isNull (convertValueForSQLite (safeGet w key))
  then key +:+ " IS NULL"
  else key +:+ " = ?".

(** The parameters that the callback binds for a list of keys. *)
Definition boundValues (w : list (string * JsValue)) (keys : list string) : list JsValue :=
  List.filter (fun value => negb (isNull value))
         (map (fun key => convertValueForSQLite (safeGet w key)) keys).

(** The text that lines 20-35 append to [sql]. *)
Definition whereText (options : Options) : string :=
  match where_ options with
  | Some w =>
      match whereKeys w with
      | [] => ""
      | keys => " WHERE " +:+ join " AND " (map (whereClause w) keys)
      end
  | None => ""
  end.

(** The text that lines 37-45 append to [sql]. *)
Definition orderText (options : Options) : string :=
  match order options with
  | Some o =>
      match orderClauses o with
      | [] => ""
      | clauses => " ORDER BY " +:+ join ", " clauses
      end
  | None => ""
  end.

(** The text that lines 47-49, and 51-53, append to [sql]. *)
Definition boundText (keyword : string) (bound : option JsNumber) : string :=
  match bound with
  | Some n => if geZero n then keyword +:+ numberToString n else ""
  | None => ""
  end.


(** The kept keys whose converted value is not [null]: those that get a
    placeholder. *)
Definition placeholderKeys (w : list (string * JsValue)) (keys : list string) : list string :=
  List.filter (fun key => negb (isNull (convertValueForSQLite (safeGet w key)))) keys.

End Query.

End FindAll.

(** ** The heap of a call

    The caller's definition object and the arrays a call allocates live in
    one heap.  A call is a function from the heap before it to its outcome
    and the heap after it. *)

Inductive Cell : Type :=
| DefinitionCell (def : ModelDefinition)
| ArrayCell (a : list string).

Inductive Outcome (A : Type) : Type :=
| Value (a : A)
| Raise (e : Error)
| Stuck.   (* a reference that does not hold what the code expects *)

Arguments Value {A} a.
Arguments Raise {A} e.
Arguments Stuck {A}.

Definition M (A : Type) : Type := gmap positive Cell -> Outcome A * gmap positive Cell.

Definition ret {A : Type} (a : A) : M A := fun h => (Value a, h).

Definition bind {A B : Type} (m : M A) (k : A -> M B) : M B :=
  fun h =>
    match m h with
    | (Value a, h') => k a h'
    | (Raise e, h') => (Raise e, h')
    | (Stuck, h') => (Stuck, h')
    end.

Notation "'let*' x ':=' m 'in' k" := (bind m (fun x => k))
  (at level 10, x name, m at level 100, k at level 200).

(** [throw new Error(...)] *)
Definition throw {A : Type} (e : Error) : M A := fun h => (Raise e, h).

(** Reading the properties of the definition object behind [r]. *)
Definition readDefinition (r : positive) : M ModelDefinition :=
  fun h =>
    match h !! r with
    | Some (DefinitionCell def) => (Value def, h)
    | _ => (Stuck, h)
    end.

(** An array literal: a new array. *)
Definition newArray (init : list string) : M positive :=
  fun h => let l := fresh (dom h) in (Value l, <[l := ArrayCell init]> h).

(** [a.push(s)] *)
Definition push (l : positive) (s : string) : M unit :=
  fun h =>
    match h !! l with
    | Some (ArrayCell a) => (Value tt, <[l := ArrayCell (a ++ [s])]> h)
    | _ => (Stuck, h)
    end.

(** Reading the elements of an array ([join], spread). *)
Definition readArray (l : positive) : M (list string) :=
  fun h =>
    match h !! l with
    | Some (ArrayCell a) => (Value a, h)
    | _ => (Stuck, h)
    end.

(** The pushes of consecutive [if (c) a.push(s)] statements, [ss] being
    the strings whose condition holds, in order. *)
Fixpoint pushEach (l : positive) (ss : list string) : M unit :=
  match ss with
  | s :: rest => let* _ := push l s in pushEach l rest
  | [] => ret tt
  end.

(** [for (const x of xs) body] *)
Fixpoint forEach {A : Type} (xs : list A) (body : A -> M unit) : M unit :=
  match xs with
  | x :: rest => let* _ := body x in forEach rest body
  | [] => ret tt
  end.

(** [if (c) statement] *)
Definition when (c : bool) (m : M unit) : M unit := if c then m else ret tt.

(** The outcome of a call as a [Result]. *)
Definition outcomeOf (res : Result) : Outcome string :=
  match res with
  | Returned sql => Value sql
  | Thrown e => Raise e
  end.

(** ** Instances of the imported helpers and example definitions

    Used only to evaluate the generator and the query builder on concrete
    inputs; every property below is proved for arbitrary helpers. *)

Module Sample.

(** Modelled from the spec: [mapDataType] of [generators/utils.js], which
    is not among the sources.  Of its table the spec gives the entry
    [STRING -> TEXT]; every other tag is returned as it is. *)
Definition mapDataType (type : string) : string :=
  if String.eqb type "STRING" then "TEXT" else type.

(** Modelled from the spec: [formatDefaultValue] of [generators/utils.js],
    which is not among the sources: quote strings, pass numbers and
    booleans through, special-case [null]. *)
Definition formatDefaultValue (v : JsValue) : string :=
  match v with
  | JsString s => "'" +:+ s +:+ "'"
  | JsNumeric n => numberToString n
  | JsBoolean b => if b then "true" else "false"
  | JsNull => "NULL"
  | JsUndefined => "undefined"
  end.

(** Modelled from the spec: [snakeCase] of [generators/utils.js], which is
    not among the sources: an upper-case letter becomes an underscore and
    its lower-case letter. *)
Fixpoint snakeCase (s : string) : string :=
  match s with
  | String c r =>
      let n := nat_of_ascii c in
      if ((65 <=? n) && (n <=? 90))%nat
      then String "_" (String (ascii_of_nat (n + 32)) (snakeCase r))
      else String c (snakeCase r)
  | EmptyString => EmptyString
  end.

(** An instance of [safeGet] of [utils/queryHelpers.js], which is not
    among the sources and which the spec does not describe: the property
    of the object, [undefined] when it has none. *)
Definition safeGet (o : list (string * JsValue)) (key : string) : JsValue :=
  FindAll.getProperty o key.

(** An instance of [convertValueForSQLite] of [utils/queryHelpers.js],
    which is not among the sources and which the spec does not describe:
    [undefined] becomes [null], a boolean becomes 1 or 0, other values
    are kept. *)
Definition convertValueForSQLite (v : JsValue) : JsValue :=
  match v with
  | JsUndefined => JsNull
  | JsBoolean b => JsNumeric (if b then NumInt 1 eq_refl else NumInt 0 eq_refl)
  | _ => v
  end.

(** [{ tableName: 'Users',
       attributes: { id: { type: 'STRING', primaryKey: true, allowNull: false } } }] *)
Definition users : ModelDefinition :=
  {| tableName := "Users";
     attributes :=
       [("id", {| Attr.type := "STRING"; Attr.primaryKey := true;
                  Attr.autoIncrement := false; Attr.allowNull := Some false;
                  Attr.unique := None; Attr.defaultValue := JsUndefined;
                  Attr.check := None; Attr.collate := None;
                  Attr.generated := None; Attr.references := None;
                  Attr.onDelete := None; Attr.onUpdate := None;
                  Attr.deferrable := false; Attr.deferred := false |})];
     options := None |}.

(** [{ tableName: 't', attributes: {},
       options: { virtual: { using: 'fts5', args: ['title', 'body'] } } }] *)
Definition documents : ModelDefinition :=
  {| tableName := "t";
     attributes := [];
     options :=
       Some {| Options.primaryKey := None; Options.constraints := None;
               Options.strict := false; Options.withoutRowid := false;
               Options.temporary := false; Options.ifNotExists := false;
               Options.underscored := false;
               Options.virtual :=
                 Some {| Virtual.using_ := Some "fts5";
                         Virtual.args := Some ["title"; "body"] |} |} |}.

(** [{ tableName: 't', attributes: {}, options: { virtual: {} } }] *)
Definition withoutUsing : ModelDefinition :=
  {| tableName := "t";
     attributes := [];
     options :=
       Some {| Options.primaryKey := None; Options.constraints := None;
               Options.strict := false; Options.withoutRowid := false;
               Options.temporary := false; Options.ifNotExists := false;
               Options.underscored := false;
               Options.virtual :=
                 Some {| Virtual.using_ := None; Virtual.args := None |} |} |}.

(** [{ type: 'INTEGER', primaryKey: true }] *)
Definition keyColumn : Attr.t :=
  {| Attr.type := "INTEGER"; Attr.primaryKey := true;
     Attr.autoIncrement := false; Attr.allowNull := None;
     Attr.unique := None; Attr.defaultValue := JsUndefined;
     Attr.check := None; Attr.collate := None;
     Attr.generated := None; Attr.references := None;
     Attr.onDelete := None; Attr.onUpdate := None;
     Attr.deferrable := false; Attr.deferred := false |}.

(** [{ primaryKey: pk, virtual: v }] *)
Definition keyOptions (pk : PrimaryKeyOption) (v : option Virtual.t) : Options.t :=
  {| Options.primaryKey := Some pk; Options.constraints := None;
     Options.strict := false; Options.withoutRowid := false;
     Options.temporary := false; Options.ifNotExists := false;
     Options.underscored := false; Options.virtual := v |}.

(** [{ tableName: 't',
       attributes: { id: { type: 'INTEGER', primaryKey: true },
                     other: { type: 'INTEGER' } },
       options: { primaryKey: 'other' } }] *)
Definition otherKey : ModelDefinition :=
  {| tableName := "t";
     attributes := [("id", keyColumn); ("other", Attr.ofType "INTEGER")];
     options := Some (keyOptions (PkName "other") None) |}.

(** [{ tableName: 't',
       attributes: { a: { type: 'INTEGER' }, b: { type: 'INTEGER' } },
       options: { primaryKey: ['a', 'b'] } }] *)
Definition composite : ModelDefinition :=
  {| tableName := "t";
     attributes := [("a", Attr.ofType "INTEGER"); ("b", Attr.ofType "INTEGER")];
     options := Some (keyOptions (PkColumns ["a"; "b"]) None) |}.

(** The same with [virtual: { using: 'fts5' }]. *)
Definition compositeVirtual : ModelDefinition :=
  {| tableName := "t";
     attributes := [("a", Attr.ofType "INTEGER"); ("b", Attr.ofType "INTEGER")];
     options :=
       Some (keyOptions (PkColumns ["a"; "b"])
               (Some {| Virtual.using_ := Some "fts5"; Virtual.args := None |})) |}.

(** [{ tableName: 't',
       attributes: { userId: { type: 'INTEGER', primaryKey: true } },
       options: { underscored: true, primaryKey: 'user_id' } }] *)
Definition underscoredKey : ModelDefinition :=
  {| tableName := "t";
     attributes := [("userId", keyColumn)];
     options :=
       Some {| Options.primaryKey := Some (PkName "user_id");
               Options.constraints := None;
               Options.strict := false; Options.withoutRowid := false;
               Options.temporary := false; Options.ifNotExists := false;
               Options.underscored := true; Options.virtual := None |} |}.

(** [{ fields: ['owner'], references: { table: 'Users', fields: 'id' } }] *)
Definition ownerKey : Fk.t :=
  {| Fk.fields := FieldsArray ["owner"];
     Fk.references := Some {| FkRef.table := "Users"; FkRef.fields := RefName "id" |};
     Fk.onDelete := None; Fk.onUpdate := None;
     Fk.deferrable := false; Fk.deferred := false |}.

(** [{ fields: [], references: { table: 'Users', fields: 'id' } }] *)
Definition emptyKey : Fk.t :=
  {| Fk.fields := FieldsArray [];
     Fk.references := Some {| FkRef.table := "Users"; FkRef.fields := RefName "id" |};
     Fk.onDelete := None; Fk.onUpdate := None;
     Fk.deferrable := false; Fk.deferred := false |}.

(** [{ tableName: 'Orders',
       attributes: { id: { type: 'INTEGER', primaryKey: true, autoIncrement: true },
                     owner: { type: 'INTEGER', allowNull: false },
                     code: { type: 'STRING', unique: 'uq_code', collate: 'NOCASE' } },
       options: { ifNotExists: true, strict: true,
                  constraints: { unique: { uq_pair: ['owner', 'code'], uq_none: [] },
                                 check: { ck_owner: 'owner > 0' },
                                 foreignKey: { fk_owner: ownerKey, fk_none: emptyKey } } } }] *)
Definition orders : ModelDefinition :=
  {| tableName := "Orders";
     attributes :=
       [("id", {| Attr.type := "INTEGER"; Attr.primaryKey := true;
                  Attr.autoIncrement := true; Attr.allowNull := None;
                  Attr.unique := None; Attr.defaultValue := JsUndefined;
                  Attr.check := None; Attr.collate := None;
                  Attr.generated := None; Attr.references := None;
                  Attr.onDelete := None; Attr.onUpdate := None;
                  Attr.deferrable := false; Attr.deferred := false |});
        ("owner", {| Attr.type := "INTEGER"; Attr.primaryKey := false;
                     Attr.autoIncrement := false; Attr.allowNull := Some false;
                     Attr.unique := None; Attr.defaultValue := JsUndefined;
                     Attr.check := None; Attr.collate := None;
                     Attr.generated := None; Attr.references := None;
                     Attr.onDelete := None; Attr.onUpdate := None;
                     Attr.deferrable := false; Attr.deferred := false |});
        ("code", {| Attr.type := "STRING"; Attr.primaryKey := false;
                    Attr.autoIncrement := false; Attr.allowNull := None;
                    Attr.unique := Some (UniqueName "uq_code");
                    Attr.defaultValue := JsUndefined;
                    Attr.check := None; Attr.collate := Some "NOCASE";
                    Attr.generated := None; Attr.references := None;
                    Attr.onDelete := None; Attr.onUpdate := None;
                    Attr.deferrable := false; Attr.deferred := false |})];
     options :=
       Some {| Options.primaryKey := None;
               Options.constraints :=
                 Some {| Constraints.unique :=
                           Some [("uq_pair", FieldsArray ["owner"; "code"]);
                                 ("uq_none", FieldsArray [])];
                         Constraints.check := Some [("ck_owner", "owner > 0")];
                         Constraints.foreignKey :=
                           Some [("fk_owner", ownerKey); ("fk_none", emptyKey)] |};
               Options.strict := true; Options.withoutRowid := false;
               Options.temporary := false; Options.ifNotExists := true;
               Options.underscored := false; Options.virtual := None |} |}.

(** [{ where: { a: undefined, b: null, c: 'x' }, order: [['c', 'DESC'], ['', 'ASC']],
       offset: 5 }] *)
Definition filtered : FindAll.Options :=
  {| FindAll.where_ := Some [("a", JsUndefined); ("b", JsNull); ("c", JsString "x")];
     FindAll.order := Some [("c", "DESC"); ("", "ASC")];
     FindAll.limit := None;
     FindAll.offset := Some (NumInt 5 eq_refl) |}.

(** [{ where: { a: undefined }, order: [['', 'DESC']], limit: -1, offset: NaN }] *)
Definition unfiltered : FindAll.Options :=
  {| FindAll.where_ := Some [("a", JsUndefined)];
     FindAll.order := Some [("", "DESC")];
     FindAll.limit := Some (NumInt (-1) eq_refl);
     FindAll.offset := Some NumNaN |}.


(** [{ tableName: 't (x)', attributes: { a: { type: 'INTEGER' } } }] *)
Definition parenthesizedName : ModelDefinition :=
  {| tableName := "t (x)";
     attributes := [("a", Attr.ofType "INTEGER")];
     options := None |}.

(** [{ tableName: 't',
       attributes: { a: { type: 'TEXT', check: "a <> ')'" } } }] *)
Definition quotedParenthesis : ModelDefinition :=
  {| tableName := "t";
     attributes :=
       [("a", {| Attr.type := "TEXT"; Attr.primaryKey := false;
                 Attr.autoIncrement := false; Attr.allowNull := None;
                 Attr.unique := None; Attr.defaultValue := JsUndefined;
                 Attr.check := Some "a <> ')'"; Attr.collate := None;
                 Attr.generated := None; Attr.references := None;
                 Attr.onDelete := None; Attr.onUpdate := None;
                 Attr.deferrable := false; Attr.deferred := false |})];
     options := None |}.

(** [{ limit: 2.5, offset: 1e21 }] *)
Definition beyondIntegers : FindAll.Options :=
  {| FindAll.where_ := None;
     FindAll.order := None;
     FindAll.limit := Some (NumFinite false "2.5" eq_refl);
     FindAll.offset := Some (NumFinite false "1e+21" eq_refl) |}.

End Sample.

(** ** The driver: [findAll] and [Database.raw] on [node:sqlite] *)

Module Database.

Section Driver.

(** The prepared statements, the rows and the errors of the driver. *)
Variables Stmt Rows DriverError : Type.

(** The helpers of [utils/queryHelpers.js]. *)
Variable safeGet : list (string * JsValue) -> string -> JsValue.
Variable convertValueForSQLite : JsValue -> JsValue.

(** [db.prepare(sql)] and [stmt.all(...values)]: each returns or throws. *)
Record Driver : Type := {
  prepare : string -> Stmt + DriverError;
  all : Stmt -> list JsValue -> Rows + DriverError
}.

(** [const stmt = db.prepare(sql);
     values.length > 0 ? stmt.all(...values) : stmt.all()],
    the body of the [try] of [findAll] (lines 56-57) and of [raw]. *)
Definition prepareAndRun (db : Driver) (sql : string) (values : list JsValue)
    : Rows + DriverError :=
  match prepare db sql with
  | inl stmt => if (0 <? length values)%nat then all db stmt values else all db stmt []
  | inr error => inr error
  end.

(** [createFindAllMethod(db, modelDefinition)(options)]: what the call
    returns or throws, and the arguments of its calls of [console.error]
    (lines 55-61 of [findAll.ts]). *)
Definition createFindAllMethod (db : Driver) (modelDefinition : ModelDefinition)
    (options : FindAll.Options)
    : (Rows + DriverError) * list (string * list JsValue) :=
  let '(sql, values) :=
    FindAll.findAllQuery safeGet convertValueForSQLite (tableName modelDefinition) options in
  match prepareAndRun db sql values with
  | inl rows => (inl rows, [])
  | inr error => (inr error, [("Error executing findAll query: " +:+ sql, values)])
  end.

(** How the promise of [raw] settles. *)
Inductive Promise : Type :=
| Resolved (rows : Rows)
| Rejected (error : DriverError).

(** [Database.raw(sql, params)]: the executor of the promise resolves with
    the rows and rejects with what the driver throws. *)
Definition raw (db : Driver) (sql : string) (params : list JsValue) : Promise :=
  match prepareAndRun db sql params with
  | inl rows => Resolved rows
  | inr error => Rejected error
  end.

End Driver.

Arguments prepare {Stmt Rows DriverError} d sql.
Arguments all {Stmt Rows DriverError} d stmt values.
Arguments prepareAndRun {Stmt Rows DriverError} db sql values.
Arguments createFindAllMethod {Stmt Rows DriverError} safeGet convertValueForSQLite
  db modelDefinition options.
Arguments Resolved {Rows DriverError} rows.
Arguments Rejected {Rows DriverError} error.
Arguments raw {Stmt Rows DriverError} db sql params.

End Database.

(** ** [table-generator.ts] *)

Section Generator.

(** The helpers of [generators/utils.js], which the generator imports. *)
Variable snakeCase : string -> string.
Variable formatDefaultValue : JsValue -> string.
Variable mapDataType : string -> string.

(** [def.options?.underscored ? snakeCase(name) : name] *)
Definition columnName (def : ModelDefinition) (name : string) : string :=
  if optionFlag Options.underscored def then snakeCase name else name.

(** The column-level primary key: what lines 26-32 push on [parts]. *)
Definition primaryKeyParts (def : ModelDefinition) (attr : Attr.t) : list string :=
  if Attr.primaryKey attr then
    if negb (primaryKeyTruthy def) || primaryKeyIsString def then
      "PRIMARY KEY" :: (if Attr.autoIncrement attr then ["AUTOINCREMENT"] else [])
    else []
  else [].

(** Line 34: [attr.allowNull === false]. *)
Definition notNullParts (attr : Attr.t) : list string :=
  match Attr.allowNull attr with
  | Some false => ["NOT NULL"]
  | _ => []
  end.

(** Lines 36-44, [attr.unique]: the inline [UNIQUE] pushed on [parts] ... *)
Definition uniqueParts (attr : Attr.t) : list string :=
  match Attr.unique attr with
  | Some (UniqueFlag true) => ["UNIQUE"]
  | _ => []
  end.

(** ... and the named constraint pushed on [tableConstraints]. *)
Definition uniqueConstraints (colName : string) (attr : Attr.t) : list string :=
  match Attr.unique attr with
  | Some (UniqueName name) =>
      if truthy (Some name)
      then ["CONSTRAINT " +:+ name +:+ " UNIQUE (" +:+ colName +:+ ")"]
      else []
  | Some (UniqueObject name) =>
      if truthy name
      then ["CONSTRAINT " +:+ template name +:+ " UNIQUE (" +:+ colName +:+ ")"]
      else []
  | _ => []
  end.

(** Lines 46-48: [attr.defaultValue !== undefined]. *)
Definition defaultParts (attr : Attr.t) : list string :=
  if isUndefined (Attr.defaultValue attr) then []
  else ["DEFAULT " +:+ formatDefaultValue (Attr.defaultValue attr)].

(** Line 50. *)
Definition checkParts (attr : Attr.t) : list string :=
  if truthy (Attr.check attr)
  then ["CHECK (" +:+ template (Attr.check attr) +:+ ")"]
  else [].

(** Lines 53-55. *)
Definition collateParts (type : string) (attr : Attr.t) : list string :=
  if String.eqb type "TEXT" && truthy (Attr.collate attr)
  then ["COLLATE " +:+ template (Attr.collate attr)]
  else [].

(** Lines 58-64. *)
Definition generatedParts (attr : Attr.t) : list string :=
  match Attr.generated attr with
  | Some g =>
      ["GENERATED ALWAYS AS (" +:+ Generated.expression g +:+ ") "
         +:+ (if Generated.stored g then "STORED" else "VIRTUAL")]
  | None => []
  end.

(** Lines 67-76. *)
Definition referencesParts (attr : Attr.t) : list string :=
  match Attr.references attr with
  | Some r =>
      ["REFERENCES " +:+ ColumnRef.table r +:+ "(" +:+ ColumnRef.column r +:+ ")"]
        ++ (if truthy (Attr.onDelete attr)
            then ["ON DELETE " +:+ template (Attr.onDelete attr)] else [])
        ++ (if truthy (Attr.onUpdate attr)
            then ["ON UPDATE " +:+ template (Attr.onUpdate attr)] else [])
        ++ (if Attr.deferrable attr
            then ["DEFERRABLE INITIALLY "
                    +:+ (if Attr.deferred attr then "DEFERRED" else "IMMEDIATE")]
            else [])
  | None => []
  end.

(** [parts] when it is joined on line 78. *)
Definition columnParts (def : ModelDefinition) (name : string) (attr : Attr.t) : list string :=
  let colName := columnName def name in
  let type := mapDataType (Attr.type attr) in
  [colName; type]
    ++ primaryKeyParts def attr
    ++ notNullParts attr
    ++ uniqueParts attr
    ++ defaultParts attr
    ++ checkParts attr
    ++ collateParts type attr
    ++ generatedParts attr
    ++ referencesParts attr.

(** One iteration of the loop of lines 20-79 on the two arrays
    [columns] and [tableConstraints]. *)
Definition processAttribute (def : ModelDefinition)
    (acc : list string * list string) (entry : string * Attr.t) : list string * list string :=
  let '(columns, tableConstraints) := acc in
  let '(name, attr) := entry in
  (columns ++ [join " " (columnParts def name attr)],
   tableConstraints ++ uniqueConstraints (columnName def name) attr).

(** Lines 82-92: the table-level primary key. *)
Definition primaryKeyConstraint (def : ModelDefinition) : list string :=
  match optionProp Options.primaryKey def with
  | Some (PkColumns cols) => ["PRIMARY KEY (" +:+ join ", " cols +:+ ")"]
  | Some (PkName s) =>
      if negb (String.eqb s "") && negb (attributePrimaryKey (attributes def) s)
      then ["PRIMARY KEY (" +:+ s +:+ ")"]
      else []
  | None => []
  end.

(** Lines 98-102. *)
Definition tableUniqueConstraint (entry : string * JsFields) : list string :=
  let '(name, fields) := entry in
  match fields with
  | FieldsArray (f :: fs) =>
      ["CONSTRAINT " +:+ name +:+ " UNIQUE (" +:+ join ", " (f :: fs) +:+ ")"]
  | _ => []
  end.

(** Lines 107-109. *)
Definition tableCheckConstraint (entry : string * string) : list string :=
  let '(name, expression) := entry in
  ["CONSTRAINT " +:+ name +:+ " CHECK (" +:+ expression +:+ ")"].

(** Lines 116-121: the text before the optional suffixes. *)
Definition foreignKeyBase (name : string) (fields : list string) (r : FkRef.t) : string :=
  ("CONSTRAINT " +:+ name +:+ " FOREIGN KEY (" +:+ join ", " fields +:+ ") ")
    +:+ ("REFERENCES " +:+ FkRef.table r +:+ "("
           +:+ (match FkRef.fields r with
                | RefArray l => join ", " l
                | RefName s => s
                end)
           +:+ ")").

(** Lines 123-127: each suffix is appended with [+=]. *)
Definition onDeleteClause (fk : Fk.t) : string :=
  if truthy (Fk.onDelete fk) then " ON DELETE " +:+ template (Fk.onDelete fk) else "".

Definition onUpdateClause (fk : Fk.t) : string :=
  if truthy (Fk.onUpdate fk) then " ON UPDATE " +:+ template (Fk.onUpdate fk) else "".

Definition deferrableClause (fk : Fk.t) : string :=
  if Fk.deferrable fk
  then " DEFERRABLE INITIALLY " +:+ (if Fk.deferred fk then "DEFERRED" else "IMMEDIATE")
  else "".

(** Lines 114-131: one entry of [constraints.foreignKey]. *)
Definition foreignKeyConstraint (entry : string * Fk.t) : list string :=
  let '(name, fk) := entry in
  match Fk.fields fk, Fk.references fk with
  | FieldsArray (f :: fs), Some r =>
      [((foreignKeyBase name (f :: fs) r +:+ onDeleteClause fk)
          +:+ onUpdateClause fk) +:+ deferrableClause fk]
  | _, _ => []
  end.

(** [Object.entries(o)] behind an [if (o)] guard. *)
Definition entriesOf {A : Type} (o : option (list (string * A))) : list (string * A) :=
  match o with
  | Some l => l
  | None => []
  end.

(** Lines 95-133. *)
Definition optionConstraints (def : ModelDefinition) : list string :=
  match optionProp Options.constraints def with
  | Some c =>
      flat_map tableUniqueConstraint (entriesOf (Constraints.unique c))
        ++ flat_map tableCheckConstraint (entriesOf (Constraints.check c))
        ++ flat_map foreignKeyConstraint (entriesOf (Constraints.foreignKey c))
  | None => []
  end.

(** Lines 139-143. *)
Definition tableOptions (def : ModelDefinition) : list string :=
  filterBoolean
    [ if optionFlag Options.strict def then "STRICT" else "";
      if optionFlag Options.withoutRowid def then "WITHOUT ROWID" else "";
      if optionFlag Options.temporary def then "TEMPORARY" else "" ].

(** [def.options?.ifNotExists ? 'IF NOT EXISTS ' : ''] *)
Definition ifNotExistsText (def : ModelDefinition) : string :=
  if optionFlag Options.ifNotExists def then "IF NOT EXISTS " else "".

(** [a?.join(', ') || ''] *)
Definition joinOrEmpty (a : option (list string)) : string :=
  match a with
  | Some l => if String.eqb (join ", " l) "" then "" else join ", " l
  | None => ""
  end.

(** Lines 156-164. *)
Definition generateVirtualTableSQL (def : ModelDefinition) : Result :=
  match optionProp Options.virtual def with
  | None => Thrown VirtualOptionsRequired
  | Some v =>
      Returned ("CREATE VIRTUAL TABLE " +:+ ifNotExistsText def +:+ tableName def
                  +:+ " USING " +:+ template (Virtual.using_ v)
                  +:+ " (" +:+ joinOrEmpty (Virtual.args v) +:+ ")")
  end.

(** The two arrays after the loop and the pushes of lines 82-133. *)
Definition columnsAndConstraints (def : ModelDefinition) : list string * list string :=
  let '(columns, tableConstraints) :=
    fold_left (processAttribute def) (attributes def) ([], []) in
  (columns, tableConstraints ++ primaryKeyConstraint def ++ optionConstraints def).

(** [[...columns, ...tableConstraints]] *)
Definition allDefinitions (def : ModelDefinition) : list string :=
  let '(columns, tableConstraints) := columnsAndConstraints def in
  columns ++ tableConstraints.

(** Lines 10-148. *)
Definition generateCreateTableSQL (def : ModelDefinition) : Result :=
  match optionProp Options.virtual def with
  | Some _ => generateVirtualTableSQL def
  | None =>
      Returned
        (trim ("CREATE TABLE " +:+ ifNotExistsText def +:+ tableName def
                 +:+ " (" +:+ join ", " (allDefinitions def) +:+ ") "
                 +:+ join " " (tableOptions def)))
  end.

(** *** The same two functions on the heap

    [def] is a reference [r]; [columns], [tableConstraints] and the
    [parts] of each column are arrays allocated by the call.  The
    statements are those of the source, in its order. *)

Definition generateVirtualTableSQLOn (r : positive) : M string :=
  let* def := readDefinition r in
  match optionProp Options.virtual def with
  | None => throw VirtualOptionsRequired
  | Some v =>
      ret ("CREATE VIRTUAL TABLE " +:+ ifNotExistsText def +:+ tableName def
             +:+ " USING " +:+ template (Virtual.using_ v)
             +:+ " (" +:+ joinOrEmpty (Virtual.args v) +:+ ")")
  end.

(** Lines 26-32. *)
Definition pushPrimaryKey (parts : positive) (def : ModelDefinition) (attr : Attr.t) : M unit :=
  when (Attr.primaryKey attr)
    (when (negb (primaryKeyTruthy def) || primaryKeyIsString def)
       (let* _ := push parts "PRIMARY KEY" in
        when (Attr.autoIncrement attr) (push parts "AUTOINCREMENT"))).

(** Line 34. *)
Definition pushNotNull (parts : positive) (attr : Attr.t) : M unit :=
  match Attr.allowNull attr with
  | Some false => push parts "NOT NULL"
  | _ => ret tt
  end.

(** Lines 36-44. *)
Definition pushUnique (parts tableConstraints : positive) (colName : string)
    (attr : Attr.t) : M unit :=
  match Attr.unique attr with
  | Some (UniqueFlag b) => when b (push parts "UNIQUE")
  | Some (UniqueName name) =>
      when (truthy (Some name))
        (push tableConstraints ("CONSTRAINT " +:+ name +:+ " UNIQUE (" +:+ colName +:+ ")"))
  | Some (UniqueObject name) =>
      when (truthy name)
        (push tableConstraints
           ("CONSTRAINT " +:+ template name +:+ " UNIQUE (" +:+ colName +:+ ")"))
  | None => ret tt
  end.

(** Lines 46-48. *)
Definition pushDefault (parts : positive) (attr : Attr.t) : M unit :=
  when (negb (isUndefined (Attr.defaultValue attr)))
    (push parts ("DEFAULT " +:+ formatDefaultValue (Attr.defaultValue attr))).

(** Line 50. *)
Definition pushCheck (parts : positive) (attr : Attr.t) : M unit :=
  when (truthy (Attr.check attr))
    (push parts ("CHECK (" +:+ template (Attr.check attr) +:+ ")")).

(** Lines 53-55. *)
Definition pushCollate (parts : positive) (type : string) (attr : Attr.t) : M unit :=
  when (String.eqb type "TEXT" && truthy (Attr.collate attr))
    (push parts ("COLLATE " +:+ template (Attr.collate attr))).

(** Lines 58-64. *)
Definition pushGenerated (parts : positive) (attr : Attr.t) : M unit :=
  match Attr.generated attr with
  | Some g =>
      push parts ("GENERATED ALWAYS AS (" +:+ Generated.expression g +:+ ") "
                    +:+ (if Generated.stored g then "STORED" else "VIRTUAL"))
  | None => ret tt
  end.

(** Lines 67-76. *)
Definition pushReferences (parts : positive) (attr : Attr.t) : M unit :=
  match Attr.references attr with
  | Some r =>
      let* _ := push parts ("REFERENCES " +:+ ColumnRef.table r +:+ "("
                              +:+ ColumnRef.column r +:+ ")") in
      let* _ := when (truthy (Attr.onDelete attr))
                  (push parts ("ON DELETE " +:+ template (Attr.onDelete attr))) in
      let* _ := when (truthy (Attr.onUpdate attr))
                  (push parts ("ON UPDATE " +:+ template (Attr.onUpdate attr))) in
      when (Attr.deferrable attr)
        (push parts ("DEFERRABLE INITIALLY "
                       +:+ (if Attr.deferred attr then "DEFERRED" else "IMMEDIATE")))
  | None => ret tt
  end.

(** The body of the loop of lines 20-79. *)
Definition columnOn (r columns tableConstraints : positive) (entry : string * Attr.t) : M unit :=
  let '(name, attr) := entry in
  let* def := readDefinition r in
  let colName := columnName def name in
  let type := mapDataType (Attr.type attr) in
  let* parts := newArray [colName; type] in
  let* _ := pushPrimaryKey parts def attr in
  let* _ := pushNotNull parts attr in
  let* _ := pushUnique parts tableConstraints colName attr in
  let* _ := pushDefault parts attr in
  let* _ := pushCheck parts attr in
  let* _ := pushCollate parts type attr in
  let* _ := pushGenerated parts attr in
  let* _ := pushReferences parts attr in
  let* p := readArray parts in
  push columns (join " " p).

(** Lines 82-92. *)
Definition pushPrimaryKeyConstraint (tableConstraints : positive) (def : ModelDefinition) : M unit :=
  match optionProp Options.primaryKey def with
  | Some (PkColumns cols) =>
      push tableConstraints ("PRIMARY KEY (" +:+ join ", " cols +:+ ")")
  | Some (PkName s) =>
      when (negb (String.eqb s "") && negb (attributePrimaryKey (attributes def) s))
        (push tableConstraints ("PRIMARY KEY (" +:+ s +:+ ")"))
  | None => ret tt
  end.

(** Lines 98-102, 107-109 and 114-131: the bodies of the three loops. *)
Definition pushTableUnique (tableConstraints : positive) (entry : string * JsFields) : M unit :=
  let '(name, fields) := entry in
  match fields with
  | FieldsArray (f :: fs) =>
      push tableConstraints
        ("CONSTRAINT " +:+ name +:+ " UNIQUE (" +:+ join ", " (f :: fs) +:+ ")")
  | _ => ret tt
  end.

Definition pushTableCheck (tableConstraints : positive) (entry : string * string) : M unit :=
  let '(name, expression) := entry in
  push tableConstraints ("CONSTRAINT " +:+ name +:+ " CHECK (" +:+ expression +:+ ")").

Definition pushForeignKey (tableConstraints : positive) (entry : string * Fk.t) : M unit :=
  let '(name, fk) := entry in
  match Fk.fields fk, Fk.references fk with
  | FieldsArray (f :: fs), Some r =>
      let constraint := foreignKeyBase name (f :: fs) r in
      let constraint := constraint +:+ onDeleteClause fk in
      let constraint := constraint +:+ onUpdateClause fk in
      let constraint := constraint +:+ deferrableClause fk in
      push tableConstraints constraint
  | _, _ => ret tt
  end.

(** Lines 95-133. *)
Definition pushOptionConstraints (tableConstraints : positive) (def : ModelDefinition) : M unit :=
  match optionProp Options.constraints def with
  | Some c =>
      let* _ := forEach (entriesOf (Constraints.unique c)) (pushTableUnique tableConstraints) in
      let* _ := forEach (entriesOf (Constraints.check c)) (pushTableCheck tableConstraints) in
      forEach (entriesOf (Constraints.foreignKey c)) (pushForeignKey tableConstraints)
  | None => ret tt
  end.

Definition generateCreateTableSQLOn (r : positive) : M string :=
  let* def := readDefinition r in
  match optionProp Options.virtual def with
  | Some _ => generateVirtualTableSQLOn r
  | None =>
      let* columns := newArray [] in
      let* tableConstraints := newArray [] in
      let* _ := forEach (attributes def) (columnOn r columns tableConstraints) in
      let* def := readDefinition r in
      let* _ := pushPrimaryKeyConstraint tableConstraints def in
      let* _ := pushOptionConstraints tableConstraints def in
      let* cs := readArray columns in
      let* ts := readArray tableConstraints in
      let* allDefinitions := newArray (cs ++ ts) in
      let* tableOptions := newArray (tableOptions def) in
      let* ds := readArray allDefinitions in
      let* os := readArray tableOptions in
      ret (trim ("CREATE TABLE " +:+ ifNotExistsText def +:+ tableName def
                   +:+ " (" +:+ join ", " ds +:+ ") " +:+ join " " os))
  end.

(** ** Notions used in the statements *)

(** The trailing modifiers as they appear in the statement. *)
Definition modifiersText (def : ModelDefinition) : string :=
match tableOptions def with
| [] => ""
| os => " " +:+ join " " os
end.

(** The last character of a string, if any. *)
Fixpoint lastChar (s : string) : option ascii :=
match s with
| String c EmptyString => Some c
| String _ r => lastChar r
| EmptyString => None
end.

(** A string has no trailing white space. *)
Definition noTrailingSpace (s : string) : Prop :=
match lastChar s with
| Some c => isWhiteSpace c = false
| None => True
end.

(** A string contains none of the two parentheses. *)
Fixpoint noParenthesis (s : string) : bool :=
match s with
| String c r => negb (Ascii.eqb c "(") && negb (Ascii.eqb c ")") && noParenthesis r
| EmptyString => true
end.

(** The column definition pushed on [columns] for one attribute. *)
Definition columnDefinition (def : ModelDefinition) (entry : string * Attr.t) : string :=
  join " " (columnParts def (fst entry) (snd entry)).

(** The named constraints pushed on [tableConstraints] for one attribute. *)
Definition namedUniqueConstraints (def : ModelDefinition) (entry : string * Attr.t) : list string :=
  uniqueConstraints (columnName def (fst entry)) (snd entry).

(** A call threw. *)
Definition isThrown (res : Result) : bool :=
  match res with
  | Thrown _ => true
  | Returned _ => false
  end.

(** [options.virtual] is truthy but has no [using]. *)
Definition missingUsing (def : ModelDefinition) : bool :=
  match optionProp Options.virtual def with
  | Some v => match Virtual.using_ v with None => true | Some _ => false end
  | None => false
  end.

(** [options.primaryKey] is the name of the attribute [name]. *)
Definition namesColumn (def : ModelDefinition) (name : string) : bool :=
  match optionProp Options.primaryKey def with
  | Some (PkName s) => String.eqb s name
  | _ => false
  end.

(** The key declared in [options.primaryKey] covers the attribute [name]. *)
Definition tableKeyCovers (def : ModelDefinition) (name : string) : bool :=
  match optionProp Options.primaryKey def with
  | Some (PkColumns cols) => existsb (String.eqb name) cols
  | Some (PkName s) => String.eqb s name
  | None => false
  end.

(** [hay.includes(needle)] *)
Fixpoint contains (needle hay : string) : bool :=
  String.prefix needle hay
  || match hay with
     | String _ r => contains needle r
     | EmptyString => false
     end.

(** The parenthesis depth and the number of groups opened at depth 0 after
    [s] is read from the state [(depth, groups)]; [None] when a closing
    parenthesis has no opening one. *)
Fixpoint scanParentheses (s : string) (depth groups : nat) : option (nat * nat) :=
  match s with
  | String c r =>
      if Ascii.eqb c "("
      then scanParentheses r (S depth) (if (depth =? 0)%nat then S groups else groups)
      else if Ascii.eqb c ")"
      then match depth with
           | O => None
           | S d => scanParentheses r d groups
           end
      else scanParentheses r depth groups
  | EmptyString => Some (depth, groups)
  end.

(** Every parenthesis of [s] has its partner. *)
Definition balanced (s : string) : Prop :=
  exists groups : nat, scanParentheses s 0 0 = Some (0, groups).

(** The number of outermost parenthesized groups of a balanced string. *)
Definition topLevelGroups (s : string) : option nat :=
  match scanParentheses s 0 0 with
  | Some (O, groups) => Some groups
  | _ => None
  end.

(** The number of occurrences of a character. *)
Fixpoint countChar (c : ascii) (s : string) : nat :=
  match s with
  | String x r => (if Ascii.eqb x c then 1 else 0) + countChar c r
  | EmptyString => 0
  end.

(** The attribute without [onDelete], [onUpdate], [deferrable] and
    [deferred]. *)
Definition withoutActions (attr : Attr.t) : Attr.t :=
  {| Attr.type := Attr.type attr; Attr.primaryKey := Attr.primaryKey attr;
     Attr.autoIncrement := Attr.autoIncrement attr;
     Attr.allowNull := Attr.allowNull attr; Attr.unique := Attr.unique attr;
     Attr.defaultValue := Attr.defaultValue attr; Attr.check := Attr.check attr;
     Attr.collate := Attr.collate attr; Attr.generated := Attr.generated attr;
     Attr.references := Attr.references attr;
     Attr.onDelete := None; Attr.onUpdate := None;
     Attr.deferrable := false; Attr.deferred := false |}.

(** The attribute without [collate]. *)
Definition withoutCollate (attr : Attr.t) : Attr.t :=
  {| Attr.type := Attr.type attr; Attr.primaryKey := Attr.primaryKey attr;
     Attr.autoIncrement := Attr.autoIncrement attr;
     Attr.allowNull := Attr.allowNull attr; Attr.unique := Attr.unique attr;
     Attr.defaultValue := Attr.defaultValue attr; Attr.check := Attr.check attr;
     Attr.collate := None; Attr.generated := Attr.generated attr;
     Attr.references := Attr.references attr;
     Attr.onDelete := Attr.onDelete attr; Attr.onUpdate := Attr.onUpdate attr;
     Attr.deferrable := Attr.deferrable attr; Attr.deferred := Attr.deferred attr |}.

(** The attribute without [autoIncrement]. *)
Definition withoutAutoIncrement (attr : Attr.t) : Attr.t :=
  {| Attr.type := Attr.type attr; Attr.primaryKey := Attr.primaryKey attr;
     Attr.autoIncrement := false;
     Attr.allowNull := Attr.allowNull attr; Attr.unique := Attr.unique attr;
     Attr.defaultValue := Attr.defaultValue attr; Attr.check := Attr.check attr;
     Attr.collate := Attr.collate attr; Attr.generated := Attr.generated attr;
     Attr.references := Attr.references attr;
     Attr.onDelete := Attr.onDelete attr; Attr.onUpdate := Attr.onUpdate attr;
     Attr.deferrable := Attr.deferrable attr; Attr.deferred := Attr.deferred attr |}.

(** [Array.isArray(fields) && fields.length > 0] *)
Definition nonEmptyArray (fields : JsFields) : bool :=
  match fields with
  | FieldsArray (_ :: _) => true
  | _ => false
  end.

(** The guard of line 115. *)
Definition wellFormedForeignKey (fk : Fk.t) : bool :=
  nonEmptyArray (Fk.fields fk)
  && match Fk.references fk with Some _ => true | None => false end.

(* ================================================================== *)
(** * Properties *)

(** ** Strings *)

Lemma append_cons (c : ascii) (a b : string) : String c a +:+ b = String c (a +:+ b).
Proof. reflexivity. Qed.

Lemma append_nil_l (b : string) : "" +:+ b = b.
Proof. reflexivity. Qed.

Lemma append_nil_r (s : string) : s +:+ "" = s.
Proof. induction s as [|c s IH]; [reflexivity | rewrite append_cons; f_equal; exact IH]. Qed.

Lemma append_assoc (a b c : string) : (a +:+ b) +:+ c = a +:+ (b +:+ c).
Proof.
induction a as [|x a IH]; [reflexivity|].
rewrite !append_cons. f_equal. exact IH.
Qed.

Lemma append_eq_nil (a b : string) : a +:+ b = "" -> a = "" /\ b = "".
Proof. destruct a; [rewrite append_nil_l; auto | rewrite append_cons; discriminate]. Qed.

Lemma trimStart_keep (c : ascii) (s : string) :
isWhiteSpace c = false -> trimStart (String c s) = String c s.
Proof. intros H. simpl. now rewrite H. Qed.

Lemma trimEnd_app (a b : string) :
trimEnd b <> "" -> trimEnd (a +:+ b) = a +:+ trimEnd b.
Proof.
intros Hb. induction a as [|c a IH]; [reflexivity|].
rewrite !append_cons. simpl. rewrite IH.
destruct (a +:+ trimEnd b) eqn:E; [|reflexivity].
apply append_eq_nil in E. tauto.
Qed.

Lemma lastChar_app (a b : string) : b <> "" -> lastChar (a +:+ b) = lastChar b.
Proof.
intros Hb. induction a as [|c a IH]; [reflexivity|].
rewrite append_cons. simpl.
destruct (a +:+ b) eqn:E; [|exact IH].
apply append_eq_nil in E. tauto.
Qed.

Lemma prefix_app (p s : string) : String.prefix p (p +:+ s) = true.
Proof.
induction p as [|c p IH]; [now destruct s|].
rewrite append_cons. simpl.
destruct (ascii_dec c c); [exact IH | congruence].
Qed.

(** ** The normal path *)

Lemma fold_processAttribute (def : ModelDefinition) (attrs : list (string * Attr.t))
    (columns tableConstraints : list string) :
  fold_left (processAttribute def) attrs (columns, tableConstraints)
  = (columns ++ map (columnDefinition def) attrs,
     tableConstraints ++ flat_map (namedUniqueConstraints def) attrs).
Proof.
  revert columns tableConstraints.
  induction attrs as [|[name attr] attrs IH]; intros columns tableConstraints.
  - simpl. now rewrite !app_nil_r.
  - simpl. rewrite IH. unfold columnDefinition, namedUniqueConstraints. simpl.
    now rewrite <- !app_assoc.
Qed.

Lemma columnsAndConstraints_eq (def : ModelDefinition) :
  columnsAndConstraints def
  = (map (columnDefinition def) (attributes def),
     flat_map (namedUniqueConstraints def) (attributes def)
       ++ primaryKeyConstraint def ++ optionConstraints def).
Proof. unfold columnsAndConstraints. now rewrite fold_processAttribute. Qed.

Lemma allDefinitions_eq (def : ModelDefinition) :
  allDefinitions def
  = map (columnDefinition def) (attributes def)
      ++ flat_map (namedUniqueConstraints def) (attributes def)
      ++ primaryKeyConstraint def ++ optionConstraints def.
Proof. unfold allDefinitions. now rewrite columnsAndConstraints_eq. Qed.

Lemma trimEnd_modifiers (def : ModelDefinition) :
  trimEnd (") " +:+ join " " (tableOptions def)) = ")" +:+ modifiersText def.
Proof.
  unfold modifiersText, tableOptions.
  destruct (optionFlag Options.strict def), (optionFlag Options.withoutRowid def),
    (optionFlag Options.temporary def); reflexivity.
Qed.

Lemma modifiersText_noParenthesis (def : ModelDefinition) :
  noParenthesis (modifiersText def) = true.
Proof.
  unfold modifiersText, tableOptions.
  destruct (optionFlag Options.strict def), (optionFlag Options.withoutRowid def),
    (optionFlag Options.temporary def); reflexivity.
Qed.

(** Without a virtual option the statement has one fixed shape; [trim]
    removes the blank after the closing parenthesis when no modifier
    follows, and nothing else. *)
Lemma generateCreateTableSQL_normal (def : ModelDefinition) :
  optionProp Options.virtual def = None ->
  generateCreateTableSQL def
  = Returned ("CREATE TABLE " +:+ ifNotExistsText def +:+ tableName def
                +:+ " (" +:+ join ", " (allDefinitions def) +:+ ")"
                +:+ modifiersText def).
Proof.
  intros Hv. unfold generateCreateTableSQL. rewrite Hv. f_equal.
  unfold trim.
  match goal with
  | |- context [trimStart ("CREATE TABLE " +:+ ?rest)] =>
      change ("CREATE TABLE " +:+ rest) with (String "C" ("REATE TABLE " +:+ rest))
  end.
  rewrite trimStart_keep by reflexivity.
  change (String "C" ?x) with ("C" +:+ x).
  transitivity
    (trimEnd (("CREATE TABLE " +:+ ifNotExistsText def +:+ tableName def
                 +:+ " (" +:+ join ", " (allDefinitions def))
                +:+ (") " +:+ join " " (tableOptions def)))).
  { f_equal. rewrite !append_assoc. reflexivity. }
  rewrite trimEnd_app.
  - rewrite trimEnd_modifiers. rewrite !append_assoc. reflexivity.
  - rewrite trimEnd_modifiers. discriminate.
Qed.

Lemma ifNotExistsText_noParenthesis (def : ModelDefinition) :
  noParenthesis (ifNotExistsText def) = true.
Proof. unfold ifNotExistsText. now destruct (optionFlag Options.ifNotExists def). Qed.

Lemma scanParentheses_app (a b : string) (depth groups : nat) :
  scanParentheses (a +:+ b) depth groups
  = match scanParentheses a depth groups with
    | Some (depth', groups') => scanParentheses b depth' groups'
    | None => None
    end.
Proof.
  revert depth groups. induction a as [|c a IH]; intros depth groups; [reflexivity|].
  rewrite append_cons. simpl.
  destruct (Ascii.eqb c "("); [apply IH|].
  destruct (Ascii.eqb c ")"); [|apply IH].
  destruct depth; [reflexivity | apply IH].
Qed.

Lemma scanParentheses_none (s : string) (depth groups : nat) :
  noParenthesis s = true -> scanParentheses s depth groups = Some (depth, groups).
Proof.
  induction s as [|c s IH]; intros H; [reflexivity|].
  simpl in *. destruct (Ascii.eqb c "("); [discriminate|].
  destruct (Ascii.eqb c ")"); [discriminate|]. now apply IH.
Qed.

(** Inside an open group a balanced text opens no outermost group. *)
Lemma scanParentheses_nested (s : string) (depth groups depth' groups' : nat) :
  scanParentheses s depth groups = Some (depth', groups') ->
  forall k outer : nat,
    scanParentheses s (depth + S k) outer = Some (depth' + S k, outer).
Proof.
  revert depth groups. induction s as [|c s IH]; intros depth groups H k outer.
  - simpl in *. now inversion H.
  - simpl in *. destruct (Ascii.eqb c "(").
    + replace (depth + S k =? 0)%nat with false
        by (symmetry; apply Nat.eqb_neq; lia).
      apply (IH (S depth) _ H).
    + destruct (Ascii.eqb c ")").
      * destruct depth as [|d]; [discriminate|]. apply (IH d _ H).
      * apply (IH depth _ H).
Qed.

(** C8.  Without a virtual option the statement begins with [CREATE TABLE]
    and is [CREATE TABLE], the optional [IF NOT EXISTS], the table name,
    the column definitions and table constraints joined by [, ] between
    one pair of parentheses, and the trailing modifiers.  The modifiers
    contain no parenthesis.  The table name and the clauses are copied as
    they are given, so the clause list is the one outermost parenthesized
    group of the statement only when the table name contains no
    parenthesis and the parentheses inside the clauses are balanced. *)
Theorem create_table_shape (def : ModelDefinition) :
  optionProp Options.virtual def = None ->
  exists sql : string,
    generateCreateTableSQL def = Returned sql
    /\ String.prefix "CREATE TABLE" sql = true
    /\ sql = ("CREATE TABLE " +:+ ifNotExistsText def +:+ tableName def)
               +:+ " (" +:+ join ", " (allDefinitions def) +:+ ")"
               +:+ modifiersText def
    /\ noParenthesis (modifiersText def) = true
    /\ (noParenthesis (tableName def) = true ->
        balanced (join ", " (allDefinitions def)) ->
        topLevelGroups sql = Some 1).
Proof.
  intros Hv. eexists. split; [apply generateCreateTableSQL_normal, Hv|].
  split; [|split; [|split]].
  - change ("CREATE TABLE " +:+ ?x) with ("CREATE TABLE" +:+ (" " +:+ x)).
    apply prefix_app.
  - rewrite !append_assoc. reflexivity.
  - apply modifiersText_noParenthesis.
  - intros Hname [groups Hbody]. unfold topLevelGroups.
    rewrite scanParentheses_app, (scanParentheses_none "CREATE TABLE ") by reflexivity.
    rewrite scanParentheses_app, (scanParentheses_none (ifNotExistsText def))
      by apply ifNotExistsText_noParenthesis.
    rewrite scanParentheses_app, (scanParentheses_none (tableName def)) by exact Hname.
    rewrite scanParentheses_app.
    change (scanParentheses " (" 0 0) with (Some (1, 1)). cbv iota.
    pose proof (scanParentheses_nested _ 0 0 0 groups Hbody 0 1) as Hnested.
    change (0 + 1) with 1 in Hnested.
    rewrite scanParentheses_app, Hnested.
    rewrite scanParentheses_app.
    change (scanParentheses ")" 1 1) with (Some (0, 1)). cbv iota.
    rewrite (scanParentheses_none (modifiersText def))
      by apply modifiersText_noParenthesis.
    reflexivity.
Qed.

(** C5.  The [Users] definition with the single attribute
    [id: {type: 'STRING', primaryKey: true, allowNull: false}] and no
    options yields exactly [CREATE TABLE Users (id TEXT PRIMARY KEY NOT NULL)],
    given that the type table maps [STRING] to [TEXT]. *)
Theorem users_statement :
  mapDataType "STRING" = "TEXT" ->
  generateCreateTableSQL Sample.users
  = Returned "CREATE TABLE Users (id TEXT PRIMARY KEY NOT NULL)".
Proof.
  intros Hty. rewrite generateCreateTableSQL_normal by reflexivity.
  rewrite allDefinitions_eq. unfold columnDefinition, columnParts, collateParts.
  simpl. rewrite Hty. reflexivity.
Qed.

Lemma joinOrEmpty_Some (l : list string) : joinOrEmpty (Some l) = join ", " l.
Proof.
  unfold joinOrEmpty. destruct (String.eqb (join ", " l) "") eqn:E; [|reflexivity].
  apply String.eqb_eq in E. now rewrite E.
Qed.

(** C6.  A definition whose virtual option has module [fts5] and arguments
    [title], [body], without [ifNotExists], yields
    [CREATE VIRTUAL TABLE t USING fts5 (title, body)] for its table name
    [t]; in general the arguments are joined by [, ], and the argument
    list is empty when [args] is absent. *)
Theorem virtual_table_statement (def : ModelDefinition) (v : Virtual.t) :
  optionProp Options.virtual def = Some v ->
  optionFlag Options.ifNotExists def = false ->
  (Virtual.using_ v = Some "fts5" -> Virtual.args v = Some ["title"; "body"] ->
   generateCreateTableSQL def
   = Returned ("CREATE VIRTUAL TABLE " +:+ tableName def +:+ " USING fts5 (title, body)"))
  /\ (forall (module : string) (args : list string),
        Virtual.using_ v = Some module -> Virtual.args v = Some args ->
        generateCreateTableSQL def
        = Returned ("CREATE VIRTUAL TABLE " +:+ tableName def +:+ " USING " +:+ module
                      +:+ " (" +:+ join ", " args +:+ ")"))
  /\ (forall module : string,
        Virtual.using_ v = Some module -> Virtual.args v = None ->
        generateCreateTableSQL def
        = Returned ("CREATE VIRTUAL TABLE " +:+ tableName def +:+ " USING " +:+ module
                      +:+ " ()")).
Proof.
  intros Hv Hine.
  assert (Hgen : generateCreateTableSQL def
                 = Returned ("CREATE VIRTUAL TABLE " +:+ tableName def
                               +:+ " USING " +:+ template (Virtual.using_ v)
                               +:+ " (" +:+ joinOrEmpty (Virtual.args v) +:+ ")")).
  { unfold generateCreateTableSQL, generateVirtualTableSQL, ifNotExistsText.
    rewrite Hv, Hine. reflexivity. }
  split; [|split].
  - intros Hu Ha. rewrite Hgen, Hu, Ha. reflexivity.
  - intros module args Hu Ha. rewrite Hgen, Hu, Ha, joinOrEmpty_Some. reflexivity.
  - intros module Hu Ha. rewrite Hgen, Hu, Ha. reflexivity.
Qed.

(** ** Errors *)

Lemma generateCreateTableSQL_returns (def : ModelDefinition) :
  exists sql : string, generateCreateTableSQL def = Returned sql.
Proof.
  unfold generateCreateTableSQL, generateVirtualTableSQL.
  destruct (optionProp Options.virtual def); eexists; reflexivity.
Qed.

(** C1, as amended.  [generateCreateTableSQL] returns a statement for every
    definition and never throws; a virtual option without [using] yields
    the module name [undefined].  The one error of the module,
    [Virtual table options are required], is thrown by
    [generateVirtualTableSQL] exactly when it is called on a definition
    without a virtual option. *)
Theorem generator_never_throws (def : ModelDefinition) :
  (exists sql : string, generateCreateTableSQL def = Returned sql)
  /\ (forall v : Virtual.t,
        optionProp Options.virtual def = Some v -> Virtual.using_ v = None ->
        generateCreateTableSQL def
        = Returned ("CREATE VIRTUAL TABLE " +:+ ifNotExistsText def +:+ tableName def
                      +:+ " USING undefined (" +:+ joinOrEmpty (Virtual.args v) +:+ ")"))
  /\ (isThrown (generateVirtualTableSQL def) = true
      <-> optionProp Options.virtual def = None).
Proof.
  split; [apply generateCreateTableSQL_returns|]. split.
  - intros v Hv Hu. unfold generateCreateTableSQL, generateVirtualTableSQL.
    rewrite Hv, Hu. reflexivity.
  - unfold generateVirtualTableSQL.
    destruct (optionProp Options.virtual def); simpl; split; congruence.
Qed.

(** ** Primary keys *)

Lemma primaryKey_composite (def : ModelDefinition) :
  primaryKeyTruthy def = true /\ primaryKeyIsString def = false
  <-> exists cols, optionProp Options.primaryKey def = Some (PkColumns cols).
Proof.
  unfold primaryKeyTruthy, primaryKeyIsString.
  destruct (optionProp Options.primaryKey def) as [[s|cols]|]; split.
  - intros [_ H]. discriminate.
  - intros [cols H]. discriminate.
  - eauto.
  - auto.
  - intros [H _]. discriminate.
  - intros [cols H]. discriminate.
Qed.

Lemma primaryKeyParts_composite (def : ModelDefinition) (attr : Attr.t) (cols : list string) :
  optionProp Options.primaryKey def = Some (PkColumns cols) ->
  primaryKeyParts def attr = [].
Proof.
  intros H. unfold primaryKeyParts, primaryKeyTruthy, primaryKeyIsString. rewrite H.
  now destruct (Attr.primaryKey attr).
Qed.

Lemma primaryKeyParts_emitted (def : ModelDefinition) (attr : Attr.t) :
  Attr.primaryKey attr = true ->
  (forall cols, optionProp Options.primaryKey def <> Some (PkColumns cols)) ->
  primaryKeyParts def attr
  = "PRIMARY KEY" :: (if Attr.autoIncrement attr then ["AUTOINCREMENT"] else []).
Proof.
  intros Hpk Hno. unfold primaryKeyParts, primaryKeyTruthy, primaryKeyIsString.
  rewrite Hpk. destruct (optionProp Options.primaryKey def) as [[s|cols]|].
  - now rewrite orb_true_r.
  - now destruct (Hno cols).
  - reflexivity.
Qed.

(** C2, as amended.  For an attribute with [primaryKey] set, the column
    definition omits the column-level [PRIMARY KEY] clause exactly when
    [options.primaryKey] is an array of column names; when it is absent or
    is a string, whether or not the string names this column, the clause
    (with [AUTOINCREMENT] if requested) is emitted, after the column name
    and the type. *)
Theorem column_primary_key (def : ModelDefinition) (name : string) (attr : Attr.t) :
  Attr.primaryKey attr = true ->
  (primaryKeyParts def attr = []
   <-> exists cols, optionProp Options.primaryKey def = Some (PkColumns cols))
  /\ ((forall cols, optionProp Options.primaryKey def <> Some (PkColumns cols)) ->
      primaryKeyParts def attr
      = "PRIMARY KEY" :: (if Attr.autoIncrement attr then ["AUTOINCREMENT"] else []))
  /\ columnDefinition def (name, attr)
     = join " " ([columnName def name; mapDataType (Attr.type attr)]
                   ++ primaryKeyParts def attr
                   ++ notNullParts attr ++ uniqueParts attr ++ defaultParts attr
                   ++ checkParts attr
                   ++ collateParts (mapDataType (Attr.type attr)) attr
                   ++ generatedParts attr ++ referencesParts attr).
Proof.
  intros Hpk. split; [|split].
  - split.
    + intros Hnil.
      destruct (optionProp Options.primaryKey def) as [[s|cols]|] eqn:E.
      * rewrite primaryKeyParts_emitted in Hnil; [discriminate | assumption | ].
        intros cols. rewrite E. discriminate.
      * eauto.
      * rewrite primaryKeyParts_emitted in Hnil; [discriminate | assumption | ].
        intros cols. rewrite E. discriminate.
    + intros [cols H]. eapply primaryKeyParts_composite, H.
  - now apply primaryKeyParts_emitted.
  - reflexivity.
Qed.

Lemma attributePrimaryKey_In (attrs : list (string * Attr.t)) (name : string) (attr : Attr.t) :
  NoDup (map fst attrs) -> In (name, attr) attrs ->
  attributePrimaryKey attrs name = Attr.primaryKey attr.
Proof.
  induction attrs as [|[n a] attrs IH]; intros Hnd Hin; [destruct Hin|].
  simpl in Hnd. inversion Hnd as [|? ? Hnotin Hnd']; subst.
  simpl. destruct Hin as [Heq | Hin].
  - inversion Heq; subst. now rewrite String.eqb_refl.
  - destruct (String.eqb n name) eqn:E.
    + apply String.eqb_eq in E. subst n. exfalso. apply Hnotin.
      apply list_elem_of_In. apply in_map_iff. exists (name, attr). auto.
    + apply IH; assumption.
Qed.

Lemma primaryKeyConstraint_length (def : ModelDefinition) :
  length (primaryKeyConstraint def) <= 1.
Proof.
  unfold primaryKeyConstraint.
  destruct (optionProp Options.primaryKey def) as [[s|cols]|]; simpl; try lia.
  destruct (negb (String.eqb s "") && negb (attributePrimaryKey (attributes def) s));
    simpl; lia.
Qed.

(** X12.  Keys being identified by attribute name, as the lookup of line 87
    does, the key of [options.primaryKey] and a column-level flag never
    both emit a [PRIMARY KEY] clause: at most one table-level constraint is
    pushed; when the option is an array no column carries the clause; and
    for an attribute that the option names, a column-level clause excludes
    the table-level constraint.  (The attribute names are those of an
    object and hence distinct.) *)
Lemma primary_key_once_per_attribute (def : ModelDefinition) :
  NoDup (map fst (attributes def)) ->
  length (primaryKeyConstraint def) <= 1
  /\ ((exists cols, optionProp Options.primaryKey def = Some (PkColumns cols)) ->
      forall name attr, In (name, attr) (attributes def) -> primaryKeyParts def attr = [])
  /\ (forall name attr,
        In (name, attr) (attributes def) ->
        tableKeyCovers def name = true ->
        primaryKeyParts def attr <> [] ->
        primaryKeyConstraint def = []).
Proof.
  intros Hnd. split; [apply primaryKeyConstraint_length|]. split.
  - intros [cols H] name attr _. eapply primaryKeyParts_composite, H.
  - intros name attr Hin Hcov Hcol.
    unfold tableKeyCovers in Hcov. unfold primaryKeyConstraint.
    destruct (optionProp Options.primaryKey def) as [[s|cols]|] eqn:E.
    + apply String.eqb_eq in Hcov. subst s.
      rewrite (attributePrimaryKey_In _ _ _ Hnd Hin).
      unfold primaryKeyParts in Hcol.
      destruct (Attr.primaryKey attr); [|congruence].
      now rewrite andb_false_r.
    + exfalso. apply Hcol. eapply primaryKeyParts_composite, E.
    + discriminate.
Qed.

(** C3, at the input on which the code fails it.  With [underscored], the
    attribute [userId] is the column [user_id]; the option
    [primaryKey: 'user_id'] is looked up among the attribute names, where
    it is not found, so the table-level [PRIMARY KEY (user_id)] is pushed
    although the column already carries [PRIMARY KEY]: the statement has
    two primary-key constraints on the same column. *)
Theorem underscored_key_emitted_twice :
  snakeCase "userId" = "user_id" ->
  columnName Sample.underscoredKey "userId" = "user_id"
  /\ primaryKeyParts Sample.underscoredKey Sample.keyColumn = ["PRIMARY KEY"]
  /\ primaryKeyConstraint Sample.underscoredKey = ["PRIMARY KEY (user_id)"]
  /\ generateCreateTableSQL Sample.underscoredKey
     = Returned ("CREATE TABLE t (user_id " +:+ mapDataType "INTEGER"
                   +:+ " PRIMARY KEY, PRIMARY KEY (user_id))").
Proof.
  intros Hsnake.
  assert (Hcol : columnName Sample.underscoredKey "userId" = "user_id") by exact Hsnake.
  split; [exact Hcol|]. split; [reflexivity|]. split; [reflexivity|].
  rewrite generateCreateTableSQL_normal by reflexivity.
  rewrite allDefinitions_eq. unfold columnDefinition, columnParts, collateParts.
  simpl. rewrite Hcol, andb_false_r. simpl. rewrite !append_assoc. reflexivity.
Qed.

(** ** Table constraints *)

Lemma prefix_app_l (p a b : string) :
  String.prefix p a = true -> String.prefix p (a +:+ b) = true.
Proof.
  revert a. induction p as [|c p IH]; intros a H; [now destruct (a +:+ b)|].
  destruct a as [|x a]; [discriminate|].
  rewrite append_cons. simpl in *.
  destruct (ascii_dec c x); [now apply IH | discriminate].
Qed.

Lemma contains_refl (s : string) : contains s s = true.
Proof.
  assert (H : String.prefix s s = true).
  { rewrite <- (append_nil_r s) at 2. apply prefix_app. }
  destruct s; simpl in *; [reflexivity | now rewrite H].
Qed.

Lemma contains_app_l (n a b : string) :
  contains n a = true -> contains n (a +:+ b) = true.
Proof.
  induction a as [|c a IH]; intros H.
  - simpl in H. rewrite orb_false_r in H. rewrite append_nil_l.
    destruct n; [|discriminate]. now destruct b.
  - rewrite append_cons. simpl in H |- *.
    apply orb_true_iff in H. apply orb_true_iff. destruct H as [H | H].
    + left. apply (prefix_app_l n (String c a) b) in H.
      now rewrite append_cons in H.
    + right. now apply IH.
Qed.

Lemma contains_app_r (n a b : string) :
  contains n b = true -> contains n (a +:+ b) = true.
Proof.
  intros H. induction a as [|c a IH]; [exact H|].
  rewrite append_cons. simpl. rewrite IH. apply orb_true_r.
Qed.

Lemma contains_join (sep x : string) (l : list string) :
  In x l -> contains x (join sep l) = true.
Proof.
  unfold join. induction l as [|y l IH]; intros Hin; [destruct Hin|].
  destruct l as [|z l].
  - destruct Hin as [-> | []]. apply contains_refl.
  - change (String.concat sep (y :: z :: l))
      with (y +:+ sep +:+ String.concat sep (z :: l)).
    destruct Hin as [-> | Hin].
    + apply contains_app_l, contains_refl.
    + apply contains_app_r, contains_app_r, IH, Hin.
Qed.

Lemma uniqueConstraints_named (colName : string) (attr : Attr.t) (c : string) :
  In c (uniqueConstraints colName attr) -> String.prefix "CONSTRAINT " c = true.
Proof.
  unfold uniqueConstraints.
  destruct (Attr.unique attr) as [[b|name|name]|]; try (intros []).
  - destruct (truthy (Some name)); intros Hin; [|destruct Hin].
    destruct Hin as [<- | []]. apply prefix_app.
  - destruct (truthy name); intros Hin; [|destruct Hin].
    destruct Hin as [<- | []]. apply prefix_app.
Qed.

Lemma foreignKeyConstraint_named (entry : string * Fk.t) (c : string) :
  In c (foreignKeyConstraint entry) -> String.prefix "CONSTRAINT " c = true.
Proof.
  destruct entry as [name fk]. unfold foreignKeyConstraint, foreignKeyBase.
  destruct (Fk.fields fk) as [[|f fs]|]; try (intros []).
  destruct (Fk.references fk) as [r|]; [|intros []].
  intros [<- | []]. rewrite !append_assoc. apply prefix_app.
Qed.

Lemma optionConstraints_named (def : ModelDefinition) (c : string) :
  In c (optionConstraints def) -> String.prefix "CONSTRAINT " c = true.
Proof.
  unfold optionConstraints. destruct (optionProp Options.constraints def) as [cs|]; [|intros []].
  rewrite !in_app_iff, !in_flat_map.
  intros [[[name fields] [_ Hin]] | [[[name expression] [_ Hin]] | [entry [_ Hin]]]].
  - unfold tableUniqueConstraint in Hin. destruct fields as [[|f fs]|]; try destruct Hin.
    + subst c. apply prefix_app.
    + destruct H.
  - destruct Hin as [<- | []]. apply prefix_app.
  - eapply foreignKeyConstraint_named, Hin.
Qed.

Lemma count_occ_named (l : list string) (key : string) :
  String.prefix "CONSTRAINT " key = false ->
  (forall c, In c l -> String.prefix "CONSTRAINT " c = true) ->
  count_occ string_dec l key = 0.
Proof.
  intros Hkey Hl. apply count_occ_not_In. intros Hin.
  apply Hl in Hin. congruence.
Qed.

(** C4, as amended.  Without a virtual option and with
    [options.primaryKey = ['a', 'b']], exactly one table constraint is
    [PRIMARY KEY (a, b)], no column carries a column-level [PRIMARY KEY]
    clause, and the statement contains the constraint. *)
Theorem composite_primary_key (def : ModelDefinition) :
  optionProp Options.virtual def = None ->
  optionProp Options.primaryKey def = Some (PkColumns ["a"; "b"]) ->
  count_occ string_dec (snd (columnsAndConstraints def)) "PRIMARY KEY (a, b)" = 1
  /\ (forall name attr,
        In (name, attr) (attributes def) -> primaryKeyParts def attr = [])
  /\ exists sql : string,
       generateCreateTableSQL def = Returned sql
       /\ sql = "CREATE TABLE " +:+ ifNotExistsText def +:+ tableName def +:+ " ("
                  +:+ join ", " (fst (columnsAndConstraints def)
                                   ++ snd (columnsAndConstraints def))
                  +:+ ")" +:+ modifiersText def
       /\ contains "PRIMARY KEY (a, b)" sql = true.
Proof.
  intros Hv Hpk.
  assert (Hkey : primaryKeyConstraint def = ["PRIMARY KEY (a, b)"]).
  { unfold primaryKeyConstraint. rewrite Hpk. reflexivity. }
  split; [|split].
  - rewrite columnsAndConstraints_eq. simpl. rewrite Hkey.
    rewrite !count_occ_app.
    rewrite (count_occ_named (flat_map _ _)), (count_occ_named (optionConstraints def));
      try reflexivity.
    + apply optionConstraints_named.
    + intros c Hin. apply in_flat_map in Hin. destruct Hin as [entry [_ Hin]].
      eapply uniqueConstraints_named, Hin.
  - intros name attr _. eapply primaryKeyParts_composite, Hpk.
  - eexists. split; [apply generateCreateTableSQL_normal, Hv|]. split.
    + unfold allDefinitions. destruct (columnsAndConstraints def). reflexivity.
    + do 4 apply contains_app_r. apply contains_app_l, contains_join.
      rewrite allDefinitions_eq, Hkey, !in_app_iff. right. right. left. now left.
Qed.

(** ** Foreign keys *)

Lemma noTrailingSpace_app (a b : string) :
  b <> "" -> noTrailingSpace b -> noTrailingSpace (a +:+ b).
Proof. intros Hb H. unfold noTrailingSpace. now rewrite lastChar_app. Qed.







(** ** The call on the heap *)

Lemma bind_value {A B : Type} (m : M A) (k : A -> M B) (h h' : gmap positive Cell) (a : A) :
  m h = (Value a, h') -> bind m k h = k a h'.
Proof. intros H. unfold bind. now rewrite H. Qed.

Lemma readDefinition_run (r : positive) (h : gmap positive Cell) (def : ModelDefinition) :
  h !! r = Some (DefinitionCell def) -> readDefinition r h = (Value def, h).
Proof. intros H. unfold readDefinition. now rewrite H. Qed.

Lemma readArray_run (l : positive) (h : gmap positive Cell) (a : list string) :
  h !! l = Some (ArrayCell a) -> readArray l h = (Value a, h).
Proof. intros H. unfold readArray. now rewrite H. Qed.

Lemma push_run (l : positive) (s : string) (h : gmap positive Cell) (a : list string) :
  h !! l = Some (ArrayCell a) ->
  push l s h = (Value tt, <[l := ArrayCell (a ++ [s])]> h).
Proof. intros H. unfold push. now rewrite H. Qed.

Lemma fresh_lookup (h : gmap positive Cell) : h !! fresh (dom h) = None.
Proof. apply not_elem_of_dom, is_fresh. Qed.

Lemma pushEach_run (l : positive) (ss : list string) (h : gmap positive Cell) (a : list string) :
  h !! l = Some (ArrayCell a) ->
  pushEach l ss h = (Value tt, <[l := ArrayCell (a ++ ss)]> h).
Proof.
  revert h a. induction ss as [|s ss IH]; intros h a H.
  - simpl. unfold ret. rewrite app_nil_r. now rewrite insert_id.
  - simpl. rewrite (bind_value _ _ _ _ _ (push_run _ _ _ _ H)).
    rewrite (IH _ (a ++ [s])) by apply lookup_insert_eq.
    rewrite insert_insert_eq. now rewrite <- app_assoc.
Qed.

Lemma bind_ext {A B : Type} (m m' : M A) (k k' : A -> M B) (h : gmap positive Cell) :
  m h = m' h -> (forall a h', k a h' = k' a h') -> bind m k h = bind m' k' h.
Proof.
  intros Hm Hk. unfold bind. rewrite Hm.
  destruct (m' h) as [[a | e |] h']; [apply Hk | reflexivity | reflexivity].
Qed.

Lemma pushEach_app (l : positive) (xs ys : list string) (h : gmap positive Cell) :
  pushEach l (xs ++ ys) h = bind (pushEach l xs) (fun _ => pushEach l ys) h.
Proof.
  revert h. induction xs as [|x xs IH]; intros h; [reflexivity|].
  simpl. unfold bind.
  destruct (push l x h) as [[[] | e |] h']; [exact (IH h') | reflexivity | reflexivity].
Qed.

(** Each block of conditional pushes pushes the strings of the
    corresponding list, in order. *)
Ltac same_pushes :=
  simpl; unfold when, bind, ret;
  repeat match goal with
         | |- context [push ?l ?s ?h] => destruct (push l s h) as [[[] | ? |] ?]
         end;
  reflexivity.

Lemma pushPrimaryKey_eq (parts : positive) (def : ModelDefinition) (attr : Attr.t)
    (h : gmap positive Cell) :
  pushPrimaryKey parts def attr h = pushEach parts (primaryKeyParts def attr) h.
Proof.
  unfold pushPrimaryKey, primaryKeyParts.
  destruct (Attr.primaryKey attr), (negb (primaryKeyTruthy def) || primaryKeyIsString def),
    (Attr.autoIncrement attr); same_pushes.
Qed.

Lemma pushNotNull_eq (parts : positive) (attr : Attr.t) (h : gmap positive Cell) :
  pushNotNull parts attr h = pushEach parts (notNullParts attr) h.
Proof.
  unfold pushNotNull, notNullParts. destruct (Attr.allowNull attr) as [[|]|]; same_pushes.
Qed.

Lemma pushUnique_eq (parts tableConstraints : positive) (colName : string) (attr : Attr.t)
    (h : gmap positive Cell) :
  pushUnique parts tableConstraints colName attr h
  = bind (pushEach parts (uniqueParts attr))
         (fun _ => pushEach tableConstraints (uniqueConstraints colName attr)) h.
Proof.
  unfold pushUnique, uniqueParts, uniqueConstraints.
  destruct (Attr.unique attr) as [[[|] | name | name]|]; try same_pushes.
  - destruct (truthy (Some name)); same_pushes.
  - destruct (truthy name); same_pushes.
Qed.

Lemma pushDefault_eq (parts : positive) (attr : Attr.t) (h : gmap positive Cell) :
  pushDefault parts attr h = pushEach parts (defaultParts attr) h.
Proof.
  unfold pushDefault, defaultParts. destruct (isUndefined (Attr.defaultValue attr)); same_pushes.
Qed.

Lemma pushCheck_eq (parts : positive) (attr : Attr.t) (h : gmap positive Cell) :
  pushCheck parts attr h = pushEach parts (checkParts attr) h.
Proof. unfold pushCheck, checkParts. destruct (truthy (Attr.check attr)); same_pushes. Qed.

Lemma pushCollate_eq (parts : positive) (type : string) (attr : Attr.t)
    (h : gmap positive Cell) :
  pushCollate parts type attr h = pushEach parts (collateParts type attr) h.
Proof.
  unfold pushCollate, collateParts.
  destruct (String.eqb type "TEXT" && truthy (Attr.collate attr)); same_pushes.
Qed.

Lemma pushGenerated_eq (parts : positive) (attr : Attr.t) (h : gmap positive Cell) :
  pushGenerated parts attr h = pushEach parts (generatedParts attr) h.
Proof.
  unfold pushGenerated, generatedParts. destruct (Attr.generated attr); same_pushes.
Qed.

Lemma pushReferences_eq (parts : positive) (attr : Attr.t) (h : gmap positive Cell) :
  pushReferences parts attr h = pushEach parts (referencesParts attr) h.
Proof.
  unfold pushReferences, referencesParts. destruct (Attr.references attr); [|same_pushes].
  destruct (truthy (Attr.onDelete attr)), (truthy (Attr.onUpdate attr)),
    (Attr.deferrable attr); same_pushes.
Qed.

Lemma pushPrimaryKeyConstraint_eq (tableConstraints : positive) (def : ModelDefinition)
    (h : gmap positive Cell) :
  pushPrimaryKeyConstraint tableConstraints def h
  = pushEach tableConstraints (primaryKeyConstraint def) h.
Proof.
  unfold pushPrimaryKeyConstraint, primaryKeyConstraint.
  destruct (optionProp Options.primaryKey def) as [[s|cols]|]; try same_pushes.
  destruct (negb (String.eqb s "") && negb (attributePrimaryKey (attributes def) s));
    same_pushes.
Qed.

Lemma forEach_pushEach {A : Type} (l : positive) (body : A -> M unit)
    (pushed : A -> list string) (xs : list A) (h : gmap positive Cell) :
  (forall x h', body x h' = pushEach l (pushed x) h') ->
  forEach xs body h = pushEach l (flat_map pushed xs) h.
Proof.
  intros Hbody. revert h. induction xs as [|x xs IH]; intros h; [reflexivity|].
  simpl. rewrite pushEach_app. apply bind_ext; [apply Hbody | intros _ h'; apply IH].
Qed.

Lemma pushTableUnique_eq (tableConstraints : positive) (entry : string * JsFields)
    (h : gmap positive Cell) :
  pushTableUnique tableConstraints entry h
  = pushEach tableConstraints (tableUniqueConstraint entry) h.
Proof. destruct entry as [name [[|f fs]|]]; same_pushes. Qed.

Lemma pushTableCheck_eq (tableConstraints : positive) (entry : string * string)
    (h : gmap positive Cell) :
  pushTableCheck tableConstraints entry h
  = pushEach tableConstraints (tableCheckConstraint entry) h.
Proof. destruct entry as [name expression]; same_pushes. Qed.

Lemma pushForeignKey_eq (tableConstraints : positive) (entry : string * Fk.t)
    (h : gmap positive Cell) :
  pushForeignKey tableConstraints entry h
  = pushEach tableConstraints (foreignKeyConstraint entry) h.
Proof.
  destruct entry as [name fk]. unfold pushForeignKey, foreignKeyConstraint.
  destruct (Fk.fields fk) as [[|f fs]|]; try same_pushes.
  destruct (Fk.references fk); same_pushes.
Qed.

Lemma pushOptionConstraints_eq (tableConstraints : positive) (def : ModelDefinition)
    (h : gmap positive Cell) :
  pushOptionConstraints tableConstraints def h
  = pushEach tableConstraints (optionConstraints def) h.
Proof.
  unfold pushOptionConstraints, optionConstraints.
  destruct (optionProp Options.constraints def) as [c|]; [|reflexivity].
  rewrite pushEach_app. apply bind_ext.
  { apply forEach_pushEach. intros x h'. apply pushTableUnique_eq. }
  intros _ h1. rewrite pushEach_app. apply bind_ext.
  { apply forEach_pushEach. intros x h'. apply pushTableCheck_eq. }
  intros _ h2. apply forEach_pushEach. intros x h'. apply pushForeignKey_eq.
Qed.

(** One iteration of the loop extends [columns] and [tableConstraints] by
    what [processAttribute] appends, and changes no other cell that
    exists before it. *)
Lemma columnOn_run (r columns tableConstraints : positive) (h : gmap positive Cell)
    (def : ModelDefinition) (cs ts : list string) (entry : string * Attr.t) :
  h !! r = Some (DefinitionCell def) ->
  h !! columns = Some (ArrayCell cs) ->
  h !! tableConstraints = Some (ArrayCell ts) ->
  columns <> tableConstraints ->
  exists h2 : gmap positive Cell,
    columnOn r columns tableConstraints entry h = (Value tt, h2)
    /\ h2 !! columns = Some (ArrayCell (cs ++ [columnDefinition def entry]))
    /\ h2 !! tableConstraints
       = Some (ArrayCell (ts ++ namedUniqueConstraints def entry))
    /\ (forall l, l <> columns -> l <> tableConstraints ->
                  is_Some (h !! l) -> h2 !! l = h !! l).
Proof.
  intros Hr Hc Ht Hne. destruct entry as [name attr].
  pose proof (fresh_lookup h) as Hfresh.
  unfold columnOn.
  rewrite (bind_value _ _ _ _ _ (readDefinition_run _ _ _ Hr)).
  unfold newArray at 1. unfold bind at 1.
  set (parts := fresh (dom h)) in *.
  assert (Hpc : parts <> columns) by congruence.
  assert (Hpt : parts <> tableConstraints) by congruence.
  erewrite bind_value;
    [|rewrite pushPrimaryKey_eq; apply pushEach_run; simplify_map_eq; reflexivity].
  erewrite bind_value;
    [|rewrite pushNotNull_eq; apply pushEach_run; simplify_map_eq; reflexivity].
  erewrite bind_value;
    [|rewrite pushUnique_eq;
      erewrite bind_value; [|apply pushEach_run; simplify_map_eq; reflexivity];
      apply pushEach_run; simplify_map_eq; reflexivity].
  erewrite bind_value;
    [|rewrite pushDefault_eq; apply pushEach_run; simplify_map_eq; reflexivity].
  erewrite bind_value;
    [|rewrite pushCheck_eq; apply pushEach_run; simplify_map_eq; reflexivity].
  erewrite bind_value;
    [|rewrite pushCollate_eq; apply pushEach_run; simplify_map_eq; reflexivity].
  erewrite bind_value;
    [|rewrite pushGenerated_eq; apply pushEach_run; simplify_map_eq; reflexivity].
  erewrite bind_value;
    [|rewrite pushReferences_eq; apply pushEach_run; simplify_map_eq; reflexivity].
  erewrite bind_value; [|apply readArray_run; simplify_map_eq; reflexivity].
  erewrite push_run; [|simplify_map_eq; reflexivity].
  eexists. split; [reflexivity|]. split; [|split].
  - simplify_map_eq. unfold columnDefinition, columnParts. simpl.
    now rewrite <- !app_assoc.
  - simplify_map_eq. reflexivity.
  - intros l Hlc Hlt Hl.
    assert (Hlp : l <> parts) by (intros ->; rewrite Hfresh in Hl; now destruct Hl).
    now simplify_map_eq.
Qed.

Lemma forEach_columnOn_run (r columns tableConstraints : positive) (def : ModelDefinition)
    (attrs : list (string * Attr.t)) (h : gmap positive Cell) (cs ts : list string) :
  h !! r = Some (DefinitionCell def) ->
  h !! columns = Some (ArrayCell cs) ->
  h !! tableConstraints = Some (ArrayCell ts) ->
  columns <> tableConstraints ->
  exists h2 : gmap positive Cell,
    forEach attrs (columnOn r columns tableConstraints) h = (Value tt, h2)
    /\ h2 !! columns = Some (ArrayCell (cs ++ map (columnDefinition def) attrs))
    /\ h2 !! tableConstraints
       = Some (ArrayCell (ts ++ flat_map (namedUniqueConstraints def) attrs))
    /\ (forall l, l <> columns -> l <> tableConstraints ->
                  is_Some (h !! l) -> h2 !! l = h !! l).
Proof.
  revert h cs ts. induction attrs as [|entry attrs IH]; intros h cs ts Hr Hc Ht Hne.
  - exists h. simpl. rewrite !app_nil_r. auto.
  - destruct (columnOn_run r columns tableConstraints h def cs ts entry Hr Hc Ht Hne)
      as (h1 & Hrun & Hc1 & Ht1 & Hframe1).
    assert (Hr1 : h1 !! r = Some (DefinitionCell def)).
    { rewrite Hframe1; [exact Hr | congruence | congruence | now rewrite Hr]. }
    destruct (IH h1 _ _ Hr1 Hc1 Ht1 Hne) as (h2 & Hrun2 & Hc2 & Ht2 & Hframe2).
    exists h2. split; [|split; [|split]].
    + simpl. now rewrite (bind_value _ _ _ _ _ Hrun).
    + rewrite Hc2. simpl. now rewrite <- app_assoc.
    + rewrite Ht2. simpl. now rewrite <- !app_assoc.
    + intros l Hlc Hlt Hl. rewrite Hframe2; auto.
      rewrite Hframe1; auto.
Qed.

(** The call on the heap returns what [generateCreateTableSQL] returns on
    the definition behind the reference, and leaves every cell that exists
    before the call as it is. *)
Lemma generateCreateTableSQLOn_run (r : positive) (h : gmap positive Cell)
    (def : ModelDefinition) :
  h !! r = Some (DefinitionCell def) ->
  exists h' : gmap positive Cell,
    generateCreateTableSQLOn r h = (outcomeOf (generateCreateTableSQL def), h')
    /\ (forall l, is_Some (h !! l) -> h' !! l = h !! l).
Proof.
  intros Hr. unfold generateCreateTableSQLOn, generateCreateTableSQL.
  rewrite (bind_value _ _ _ _ _ (readDefinition_run _ _ _ Hr)).
  destruct (optionProp Options.virtual def) as [v|] eqn:Hv.
  - exists h. split; [|auto].
    unfold generateVirtualTableSQLOn, generateVirtualTableSQL.
    rewrite (bind_value _ _ _ _ _ (readDefinition_run _ _ _ Hr)).
    now rewrite Hv.
  - pose proof (fresh_lookup h) as Hfc.
    unfold newArray at 1. unfold bind at 1.
    set (columns := fresh (dom h)) in *.
    set (h1 := <[columns := ArrayCell []]> h).
    pose proof (fresh_lookup h1) as Hft.
    unfold newArray at 1. unfold bind at 1.
    set (tableConstraints := fresh (dom h1)) in *.
    set (h2 := <[tableConstraints := ArrayCell []]> h1).
    assert (Hne : columns <> tableConstraints).
    { intros E. rewrite <- E in Hft. unfold h1 in Hft.
      rewrite lookup_insert_eq in Hft. discriminate. }
    assert (Hrc : r <> columns) by congruence.
    assert (Hrt : r <> tableConstraints).
    { intros E. rewrite <- E in Hft. unfold h1 in Hft.
      rewrite lookup_insert_ne in Hft by congruence. congruence. }
    destruct (forEach_columnOn_run r columns tableConstraints def (attributes def) h2 [] [])
      as (h3 & Hrun & Hc3 & Ht3 & Hframe3); auto.
    { unfold h2, h1. now simplify_map_eq. }
    { unfold h2, h1. now simplify_map_eq. }
    { unfold h2. now simplify_map_eq. }
    assert (Hr3 : h3 !! r = Some (DefinitionCell def)).
    { rewrite Hframe3; auto; unfold h2, h1; simplify_map_eq; eauto. }
    rewrite (bind_value _ _ _ _ _ Hrun).
    rewrite (bind_value _ _ _ _ _ (readDefinition_run _ _ _ Hr3)).
    erewrite bind_value;
      [|rewrite pushPrimaryKeyConstraint_eq; apply pushEach_run; simplify_map_eq;
        reflexivity].
    erewrite bind_value;
      [|rewrite pushOptionConstraints_eq; apply pushEach_run; simplify_map_eq;
        reflexivity].
    erewrite bind_value; [|apply readArray_run; simplify_map_eq; reflexivity].
    erewrite bind_value; [|apply readArray_run; simplify_map_eq; reflexivity].
    unfold newArray at 1. unfold bind at 1.
    match goal with |- context [fresh (dom ?m)] =>
      pose proof (fresh_lookup m) as Hfa; set (h4 := m) in *;
      set (allDefs := fresh (dom h4)) in * end.
    unfold newArray at 1. unfold bind at 1.
    match goal with |- context [fresh (dom (<[allDefs := ?c]> h4))] =>
      pose proof (fresh_lookup (<[allDefs := c]> h4)) as Hfo;
      set (h5 := <[allDefs := c]> h4) in *;
      set (opts := fresh (dom h5)) in * end.
    assert (Hao : allDefs <> opts).
    { intros E. rewrite <- E in Hfo. unfold h5 in Hfo.
      rewrite lookup_insert_eq in Hfo. discriminate. }
    erewrite bind_value; [|apply readArray_run; unfold h5; simplify_map_eq; reflexivity].
    erewrite bind_value; [|apply readArray_run; simplify_map_eq; reflexivity].
    eexists. split.
    + unfold ret, outcomeOf. f_equal. f_equal. f_equal.
      rewrite allDefinitions_eq. simpl. now rewrite <- !app_assoc.
    + intros l Hl.
      assert (Hlc : l <> columns) by (intros ->; rewrite Hfc in Hl; now destruct Hl).
      assert (Hl1 : h1 !! l = h !! l) by (unfold h1; now simplify_map_eq).
      assert (Hlt : l <> tableConstraints).
      { intros ->. rewrite Hft in Hl1. rewrite <- Hl1 in Hl. now destruct Hl. }
      assert (Hl3 : h3 !! l = h !! l).
      { rewrite Hframe3; auto; unfold h2, h1; simplify_map_eq; auto. }
      assert (Hl4 : h4 !! l = h !! l) by (unfold h4; now simplify_map_eq).
      assert (Hla : l <> allDefs).
      { intros ->. rewrite Hfa in Hl4. rewrite <- Hl4 in Hl. now destruct Hl. }
      assert (Hl5 : h5 !! l = h !! l) by (unfold h5; now simplify_map_eq).
      assert (Hlo : l <> opts).
      { intros ->. rewrite Hfo in Hl5. rewrite <- Hl5 in Hl. now destruct Hl. }
      rewrite lookup_insert_ne by congruence. exact Hl5.
Qed.

(** C9.  Two consecutive calls on the same definition object return the
    same outcome, which is a function of the definition alone, and neither
    call changes the definition object or any other cell that exists when
    it starts: the arrays a call pushes on are its own. *)
Theorem generator_deterministic (r : positive) (h : gmap positive Cell)
    (def : ModelDefinition) :
  h !! r = Some (DefinitionCell def) ->
  exists (out : Outcome string) (h1 h2 : gmap positive Cell),
    generateCreateTableSQLOn r h = (out, h1)
    /\ generateCreateTableSQLOn r h1 = (out, h2)
    /\ out = outcomeOf (generateCreateTableSQL def)
    /\ h1 !! r = Some (DefinitionCell def)
    /\ h2 !! r = Some (DefinitionCell def)
    /\ (forall l, is_Some (h !! l) -> h1 !! l = h !! l)
    /\ (forall l, is_Some (h1 !! l) -> h2 !! l = h1 !! l).
Proof.
  intros Hr.
  destruct (generateCreateTableSQLOn_run r h def Hr) as (h1 & Hrun1 & Hframe1).
  assert (Hr1 : h1 !! r = Some (DefinitionCell def)).
  { rewrite Hframe1; [exact Hr | now rewrite Hr]. }
  destruct (generateCreateTableSQLOn_run r h1 def Hr1) as (h2 & Hrun2 & Hframe2).
  exists (outcomeOf (generateCreateTableSQL def)), h1, h2.
  repeat split; auto.
  rewrite Hframe2; [exact Hr1 | now rewrite Hr1].
Qed.

(** ** Further properties of the statement *)

Lemma modifiersText_flags (def : ModelDefinition) :
  modifiersText def
  = (if optionFlag Options.strict def then " STRICT" else "")
      +:+ (if optionFlag Options.withoutRowid def then " WITHOUT ROWID" else "")
      +:+ (if optionFlag Options.temporary def then " TEMPORARY" else "").
Proof.
  unfold modifiersText, tableOptions.
  destruct (optionFlag Options.strict def), (optionFlag Options.withoutRowid def),
    (optionFlag Options.temporary def); reflexivity.
Qed.

Lemma closing_noTrailingSpace (a : string) (def : ModelDefinition) :
  noTrailingSpace (a +:+ ")" +:+ modifiersText def).
Proof.
  rewrite modifiersText_flags.
  destruct (optionFlag Options.strict def), (optionFlag Options.withoutRowid def),
    (optionFlag Options.temporary def);
    (apply noTrailingSpace_app; [discriminate | reflexivity]).
Qed.

(** X1.  [ifNotExists] puts [IF NOT EXISTS] between [CREATE TABLE] (or
    [CREATE VIRTUAL TABLE]) and the table name; without it the table name
    follows the keywords directly.  The name is followed by the clause
    list, or by [USING] for a virtual table. *)
Theorem if_not_exists_position (def : ModelDefinition) (sql : string) :
  generateCreateTableSQL def = Returned sql ->
  (optionProp Options.virtual def = None ->
   (optionFlag Options.ifNotExists def = true ->
    String.prefix ("CREATE TABLE IF NOT EXISTS " +:+ tableName def +:+ " (") sql = true)
   /\ (optionFlag Options.ifNotExists def = false ->
       String.prefix ("CREATE TABLE " +:+ tableName def +:+ " (") sql = true))
  /\ (optionProp Options.virtual def <> None ->
      (optionFlag Options.ifNotExists def = true ->
       String.prefix ("CREATE VIRTUAL TABLE IF NOT EXISTS " +:+ tableName def +:+ " USING ")
                     sql = true)
      /\ (optionFlag Options.ifNotExists def = false ->
          String.prefix ("CREATE VIRTUAL TABLE " +:+ tableName def +:+ " USING ") sql = true)).
Proof.
  intros Hgen. split.
  - intros Hv. rewrite generateCreateTableSQL_normal in Hgen by exact Hv.
    inversion Hgen as [Hsql]. clear Hgen Hsql. unfold ifNotExistsText.
    split; intros ->;
      match goal with
      | |- String.prefix ?p ?s = true =>
          replace s with (p +:+ (join ", " (allDefinitions def) +:+ ")"
                                  +:+ modifiersText def))
            by (rewrite ?append_assoc; reflexivity)
      end; apply prefix_app.
  - intros Hv. unfold generateCreateTableSQL, generateVirtualTableSQL in Hgen.
    destruct (optionProp Options.virtual def) as [v|]; [|congruence].
    inversion Hgen as [Hsql]. clear Hgen Hsql. unfold ifNotExistsText.
    split; intros ->;
      match goal with
      | |- String.prefix ?p ?s = true =>
          replace s with (p +:+ (template (Virtual.using_ v) +:+ " ("
                                  +:+ joinOrEmpty (Virtual.args v) +:+ ")"))
            by (rewrite ?append_assoc; reflexivity)
      end; apply prefix_app.
Qed.

(** X2.  The statement of a virtual table depends on the table name,
    [ifNotExists] and the virtual option alone: attributes, primary key,
    constraints and the table modifiers of the definition are ignored. *)
Theorem virtual_table_ignores_columns (def def' : ModelDefinition) (v : Virtual.t) :
  optionProp Options.virtual def = Some v ->
  optionProp Options.virtual def' = Some v ->
  tableName def = tableName def' ->
  optionFlag Options.ifNotExists def = optionFlag Options.ifNotExists def' ->
  generateCreateTableSQL def = generateCreateTableSQL def'.
Proof.
  intros Hv Hv' Hname Hine.
  unfold generateCreateTableSQL, generateVirtualTableSQL, ifNotExistsText.
  now rewrite Hv, Hv', Hname, Hine.
Qed.

(** X3.  Every statement begins with [CREATE ] and ends without white
    space: the blank that the template leaves after the clause list is
    trimmed when no modifier follows, and a virtual-table statement ends
    with its closing parenthesis. *)
Theorem statement_not_padded (def : ModelDefinition) (sql : string) :
  generateCreateTableSQL def = Returned sql ->
  String.prefix "CREATE " sql = true /\ noTrailingSpace sql.
Proof.
  intros Hgen. destruct (optionProp Options.virtual def) as [v|] eqn:Hv.
  - unfold generateCreateTableSQL, generateVirtualTableSQL in Hgen. rewrite Hv in Hgen.
    inversion Hgen as [Hsql]. clear Hgen Hsql. split; [reflexivity|].
    rewrite <- !append_assoc. apply noTrailingSpace_app; [discriminate | reflexivity].
  - rewrite generateCreateTableSQL_normal in Hgen by exact Hv.
    inversion Hgen as [Hsql]. clear Hgen Hsql. split; [reflexivity|].
    match goal with
    | |- noTrailingSpace ?s =>
        replace s with (("CREATE TABLE " +:+ ifNotExistsText def +:+ tableName def
                           +:+ " (" +:+ join ", " (allDefinitions def))
                          +:+ ")" +:+ modifiersText def)
          by (rewrite ?append_assoc; reflexivity)
    end.
    apply closing_noTrailingSpace.
Qed.

(** X4.  The table modifiers follow the clause list in the fixed order
    [STRICT], [WITHOUT ROWID], [TEMPORARY], each preceded by one blank and
    present exactly when its option is set; [temporary] does not change
    the beginning [CREATE TABLE] of the statement. *)
Theorem table_modifiers (def : ModelDefinition) :
  optionProp Options.virtual def = None ->
  generateCreateTableSQL def
  = Returned (("CREATE TABLE " +:+ ifNotExistsText def +:+ tableName def
                 +:+ " (" +:+ join ", " (allDefinitions def) +:+ ")")
                +:+ (if optionFlag Options.strict def then " STRICT" else "")
                +:+ (if optionFlag Options.withoutRowid def then " WITHOUT ROWID" else "")
                +:+ (if optionFlag Options.temporary def then " TEMPORARY" else "")).
Proof.
  intros Hv. rewrite generateCreateTableSQL_normal by exact Hv.
  rewrite modifiersText_flags. rewrite !append_assoc. reflexivity.
Qed.

(** X5.  The loop pushes one column definition per attribute, in the order
    of the attributes, and the table constraints are, in this order: the
    named unique constraints of the attributes, the primary key of the
    options, and the constraints of [options.constraints]. *)
Theorem clause_list_order (def : ModelDefinition) :
  fst (columnsAndConstraints def) = map (columnDefinition def) (attributes def)
  /\ length (fst (columnsAndConstraints def)) = length (attributes def)
  /\ (forall i : nat,
        nth_error (fst (columnsAndConstraints def)) i
        = option_map (columnDefinition def) (nth_error (attributes def) i))
  /\ snd (columnsAndConstraints def)
     = flat_map (namedUniqueConstraints def) (attributes def)
         ++ primaryKeyConstraint def ++ optionConstraints def
  /\ allDefinitions def
     = fst (columnsAndConstraints def) ++ snd (columnsAndConstraints def).
Proof.
  rewrite columnsAndConstraints_eq. simpl. split; [reflexivity|].
  split; [apply length_map|]. split; [intros i; apply nth_error_map|].
  split; [reflexivity|]. apply allDefinitions_eq.
Qed.

(** X6.  Without a virtual option every column definition and every table
    constraint that was pushed occurs in the statement. *)
Theorem clauses_in_statement (def : ModelDefinition) (clause : string) :
  optionProp Options.virtual def = None ->
  In clause (allDefinitions def) ->
  exists sql : string,
    generateCreateTableSQL def = Returned sql /\ contains clause sql = true.
Proof.
  intros Hv Hin. eexists. split; [apply generateCreateTableSQL_normal, Hv|].
  do 4 apply contains_app_r. apply contains_app_l, contains_join, Hin.
Qed.

(** X7.  [unique] gives either the inline [UNIQUE] (for [true]) or one
    named table constraint on the column (for a non-empty string, or an
    object with a non-empty [name]), never both; [false], the empty
    string and an object without a name give nothing. *)
Theorem unique_inline_or_named (colName : string) (attr : Attr.t) :
  (uniqueParts attr = [] \/ uniqueConstraints colName attr = [])
  /\ (uniqueParts attr = ["UNIQUE"] <-> Attr.unique attr = Some (UniqueFlag true))
  /\ (forall name : string,
        name <> "" ->
        Attr.unique attr = Some (UniqueName name)
        \/ Attr.unique attr = Some (UniqueObject (Some name)) ->
        uniqueParts attr = []
        /\ uniqueConstraints colName attr
           = ["CONSTRAINT " +:+ name +:+ " UNIQUE (" +:+ colName +:+ ")"])
  /\ (Attr.unique attr = None \/ Attr.unique attr = Some (UniqueFlag false)
      \/ Attr.unique attr = Some (UniqueName "")
      \/ Attr.unique attr = Some (UniqueObject None)
      \/ Attr.unique attr = Some (UniqueObject (Some "")) ->
      uniqueParts attr = [] /\ uniqueConstraints colName attr = []).
Proof.
  unfold uniqueParts, uniqueConstraints. split; [|split; [|split]].
  - destruct (Attr.unique attr) as [[[|] | name | name]|]; auto.
  - destruct (Attr.unique attr) as [[[|] | name | name]|]; split; congruence.
  - intros name Hne [-> | ->].
    + simpl. destruct (String.eqb name "") eqn:E; [|auto].
      apply String.eqb_eq in E. contradiction.
    + simpl. destruct (String.eqb name "") eqn:E; [|auto].
      apply String.eqb_eq in E. contradiction.
  - intros [-> | [-> | [-> | [-> | ->]]]]; auto.
Qed.

Lemma prefix_app_both (p q r : string) :
  String.prefix q r = true -> String.prefix (p +:+ q) (p +:+ r) = true.
Proof.
  intros H. induction p as [|c p IH]; [exact H|].
  rewrite !append_cons. simpl. destruct (ascii_dec c c); [exact IH | congruence].
Qed.

Lemma prefix_join_head (sep x : string) (l : list string) :
  String.prefix x (join sep (x :: l)) = true.
Proof.
  unfold join. destruct l as [|y l].
  - simpl. rewrite <- (append_nil_r x) at 2. apply prefix_app.
  - change (String.concat sep (x :: y :: l)) with (x +:+ sep +:+ String.concat sep (y :: l)).
    apply prefix_app.
Qed.

(** X8.  A column definition begins with the column name, one blank and
    the mapped type; for an attribute that has a type and nothing else it
    is exactly that. *)
Theorem column_begins_with_name_and_type (def : ModelDefinition) (name : string)
    (attr : Attr.t) :
  String.prefix (columnName def name +:+ " " +:+ mapDataType (Attr.type attr))
                (columnDefinition def (name, attr)) = true
  /\ forall type : string,
       columnDefinition def (name, Attr.ofType type)
       = columnName def name +:+ " " +:+ mapDataType type.
Proof.
  split.
  - unfold columnDefinition, columnParts. simpl fst. simpl snd.
    match goal with
    | |- String.prefix _ (join " " ([?a; ?b] ++ ?rest)) = true =>
        change (join " " ([a; b] ++ rest)) with (a +:+ " " +:+ join " " (b :: rest))
    end.
    apply prefix_app_both, prefix_app_both, prefix_join_head.
  - intros type. unfold columnDefinition, columnParts, collateParts. simpl.
    rewrite andb_false_r. reflexivity.
Qed.

(** X9.  Properties of an attribute that are silently ignored: the
    referential actions and [deferrable] without [references]; [collate]
    on a column whose mapped type is not [TEXT]; [autoIncrement] on a
    column that gets no column-level [PRIMARY KEY]. *)
Theorem ignored_attribute_properties (def : ModelDefinition) (name : string)
    (attr : Attr.t) :
  (Attr.references attr = None ->
   columnDefinition def (name, attr) = columnDefinition def (name, withoutActions attr))
  /\ (String.eqb (mapDataType (Attr.type attr)) "TEXT" = false ->
      columnDefinition def (name, attr) = columnDefinition def (name, withoutCollate attr))
  /\ (primaryKeyParts def attr = [] ->
      columnDefinition def (name, attr)
      = columnDefinition def (name, withoutAutoIncrement attr)).
Proof.
  split; [|split].
  - intros H. unfold columnDefinition, columnParts, referencesParts. simpl. now rewrite H.
  - intros H. unfold columnDefinition, columnParts, collateParts. simpl. now rewrite H.
  - intros H. unfold columnDefinition, columnParts. simpl.
    replace (primaryKeyParts def (withoutAutoIncrement attr)) with (primaryKeyParts def attr);
      [reflexivity|].
    revert H. unfold primaryKeyParts. simpl.
    destruct (Attr.primaryKey attr); [|reflexivity].
    destruct (negb (primaryKeyTruthy def) || primaryKeyIsString def);
      [discriminate | reflexivity].
Qed.

Lemma attributePrimaryKey_absent (attrs : list (string * Attr.t)) (name : string) :
  ~ In name (map fst attrs) -> attributePrimaryKey attrs name = false.
Proof.
  induction attrs as [|[n a] attrs IH]; intros H; [reflexivity|].
  simpl in *. destruct (String.eqb n name) eqn:E.
  - apply String.eqb_eq in E. tauto.
  - apply IH. tauto.
Qed.

(** X10.  Edge cases of [options.primaryKey]: an empty array still pushes
    [PRIMARY KEY ()] and suppresses every column-level clause; a string
    that names no attribute is pushed as [PRIMARY KEY (name)]; the empty
    string counts as no option at all. *)
Theorem primary_key_option_edges (def : ModelDefinition) :
  (optionProp Options.primaryKey def = Some (PkColumns []) ->
   primaryKeyConstraint def = ["PRIMARY KEY ()"]
   /\ forall attr, primaryKeyParts def attr = [])
  /\ (forall name : string,
        optionProp Options.primaryKey def = Some (PkName name) ->
        name <> "" -> ~ In name (map fst (attributes def)) ->
        primaryKeyConstraint def = ["PRIMARY KEY (" +:+ name +:+ ")"])
  /\ (optionProp Options.primaryKey def = Some (PkName "") ->
      primaryKeyConstraint def = []
      /\ forall attr,
           Attr.primaryKey attr = true ->
           primaryKeyParts def attr
           = "PRIMARY KEY" :: (if Attr.autoIncrement attr then ["AUTOINCREMENT"] else [])).
Proof.
  split; [|split].
  - intros H. split.
    + unfold primaryKeyConstraint. now rewrite H.
    + intros attr. eapply primaryKeyParts_composite, H.
  - intros name H Hne Hnot. unfold primaryKeyConstraint. rewrite H.
    rewrite (attributePrimaryKey_absent _ _ Hnot).
    destruct (String.eqb name "") eqn:E; [|reflexivity].
    apply String.eqb_eq in E. contradiction.
  - intros H. split.
    + unfold primaryKeyConstraint. now rewrite H.
    + intros attr Hpk. apply primaryKeyParts_emitted; [exact Hpk|].
      intros cols. rewrite H. discriminate.
Qed.

Lemma length_flat_map_guarded {A : Type} (f : A -> list string) (p : A -> bool)
    (l : list A) :
  (forall x, length (f x) = if p x then 1 else 0) ->
  length (flat_map f l) = length (List.filter p l).
Proof.
  intros Hf. induction l as [|x l IH]; [reflexivity|].
  simpl. rewrite length_app, Hf, IH. now destruct (p x).
Qed.

(** X11.  [options.constraints] gives one table constraint for each unique
    entry whose columns are a non-empty array, one for each check entry
    whatever its expression, and one for each foreign-key entry that has
    a non-empty array of fields and references; the other entries give
    none. *)
Theorem option_constraints_count (def : ModelDefinition) (c : Constraints.t) :
  optionProp Options.constraints def = Some c ->
  length (optionConstraints def)
  = length (List.filter (fun entry => nonEmptyArray (snd entry))
                        (entriesOf (Constraints.unique c)))
    + length (entriesOf (Constraints.check c))
    + length (List.filter (fun entry => wellFormedForeignKey (snd entry))
                          (entriesOf (Constraints.foreignKey c))).
Proof.
  intros Hc. unfold optionConstraints. rewrite Hc. rewrite !length_app.
  rewrite (length_flat_map_guarded tableUniqueConstraint
             (fun entry => nonEmptyArray (snd entry))).
  2: { intros [name [[|f fs]|]]; reflexivity. }
  rewrite (length_flat_map_guarded tableCheckConstraint (fun _ => true)).
  2: { intros [name expression]; reflexivity. }
  rewrite (length_flat_map_guarded foreignKeyConstraint
             (fun entry => wellFormedForeignKey (snd entry))).
  2: { intros [name fk]. unfold foreignKeyConstraint, wellFormedForeignKey. simpl.
       destruct (Fk.fields fk) as [[|f fs]|]; try reflexivity.
       destruct (Fk.references fk); reflexivity. }
  replace (List.filter (fun _ : string * string => true) (entriesOf (Constraints.check c)))
    with (entriesOf (Constraints.check c)); [lia|].
  induction (entriesOf (Constraints.check c)) as [|x l IH]; [reflexivity|].
  simpl. now rewrite <- IH.
Qed.

(** X20.  A definition without attributes, primary key and constraints
    raises no error: the statement has an empty clause list. *)
Theorem empty_clause_list (def : ModelDefinition) :
  optionProp Options.virtual def = None ->
  attributes def = [] ->
  optionProp Options.primaryKey def = None ->
  optionProp Options.constraints def = None ->
  generateCreateTableSQL def
  = Returned ("CREATE TABLE " +:+ ifNotExistsText def +:+ tableName def +:+ " ()"
                +:+ modifiersText def).
Proof.
  intros Hv Hattrs Hpk Hcs. rewrite generateCreateTableSQL_normal by exact Hv.
  rewrite allDefinitions_eq, Hattrs. unfold primaryKeyConstraint, optionConstraints.
  rewrite Hpk, Hcs. reflexivity.
Qed.

(** X21.  Calls do not interfere: on a heap that holds two definition
    objects, a call on the first followed by a call on the second returns
    for each the outcome of its own definition, and both objects are
    unchanged afterwards. *)
Theorem calls_do_not_interfere (r r' : positive) (h : gmap positive Cell)
    (def def' : ModelDefinition) :
  h !! r = Some (DefinitionCell def) ->
  h !! r' = Some (DefinitionCell def') ->
  exists h1 h2 : gmap positive Cell,
    generateCreateTableSQLOn r h = (outcomeOf (generateCreateTableSQL def), h1)
    /\ generateCreateTableSQLOn r' h1 = (outcomeOf (generateCreateTableSQL def'), h2)
    /\ h2 !! r = Some (DefinitionCell def)
    /\ h2 !! r' = Some (DefinitionCell def').
Proof.
  intros Hr Hr'.
  destruct (generateCreateTableSQLOn_run r h def Hr) as (h1 & Hrun1 & Hframe1).
  assert (Hr1 : h1 !! r = Some (DefinitionCell def)).
  { rewrite Hframe1; [exact Hr | now rewrite Hr]. }
  assert (Hr1' : h1 !! r' = Some (DefinitionCell def')).
  { rewrite Hframe1; [exact Hr' | now rewrite Hr']. }
  destruct (generateCreateTableSQLOn_run r' h1 def' Hr1') as (h2 & Hrun2 & Hframe2).
  exists h1, h2. split; [exact Hrun1|]. split; [exact Hrun2|]. split.
  - rewrite Hframe2; [exact Hr1 | now rewrite Hr1].
  - rewrite Hframe2; [exact Hr1' | now rewrite Hr1'].
Qed.

End Generator.

(** ** The query of [findAll] *)

Section FindAllFacts.

Variable safeGet : list (string * JsValue) -> string -> JsValue.
Variable convertValueForSQLite : JsValue -> JsValue.

Lemma whereStep_eq (w : list (string * JsValue)) (key : string)
    (clauses : list string) (values : list JsValue) :
  FindAll.whereStep safeGet convertValueForSQLite w (clauses, values) key
  = (clauses ++ [FindAll.whereClause safeGet convertValueForSQLite w key],
     values ++ FindAll.boundValues safeGet convertValueForSQLite w [key]).
Proof.
  unfold FindAll.whereStep, FindAll.whereClause, FindAll.boundValues. simpl.
  destruct (isNull (convertValueForSQLite (safeGet w key))); simpl;
    [now rewrite app_nil_r | reflexivity].
Qed.

Lemma boundValues_cons (w : list (string * JsValue)) (key : string) (keys : list string) :
  FindAll.boundValues safeGet convertValueForSQLite w (key :: keys)
  = FindAll.boundValues safeGet convertValueForSQLite w [key]
      ++ FindAll.boundValues safeGet convertValueForSQLite w keys.
Proof.
  unfold FindAll.boundValues. simpl.
  now destruct (isNull (convertValueForSQLite (safeGet w key))).
Qed.

Lemma fold_whereStep (w : list (string * JsValue)) (keys : list string)
    (clauses : list string) (values : list JsValue) :
  fold_left (FindAll.whereStep safeGet convertValueForSQLite w) keys (clauses, values)
  = (clauses ++ map (FindAll.whereClause safeGet convertValueForSQLite w) keys,
     values ++ FindAll.boundValues safeGet convertValueForSQLite w keys).
Proof.
  revert clauses values. induction keys as [|key keys IH]; intros clauses values.
  - simpl. now rewrite !app_nil_r.
  - cbn [fold_left map]. rewrite whereStep_eq, IH, (boundValues_cons w key keys).
    now rewrite <- !app_assoc.
Qed.

Lemma addWhere_eq (options : FindAll.Options) (sql : string) :
  FindAll.addWhere safeGet convertValueForSQLite options (sql, [])
  = (sql +:+ FindAll.whereText safeGet convertValueForSQLite options,
     match FindAll.where_ options with
     | Some w => FindAll.boundValues safeGet convertValueForSQLite w (FindAll.whereKeys w)
     | None => []
     end).
Proof.
  unfold FindAll.addWhere, FindAll.whereText.
  destruct (FindAll.where_ options) as [w|]; [|now rewrite append_nil_r].
  rewrite fold_whereStep. simpl.
  destruct (FindAll.whereKeys w) as [|key keys]; simpl; [now rewrite append_nil_r|].
  reflexivity.
Qed.

Lemma addOrder_eq (options : FindAll.Options) (sql : string) :
  FindAll.addOrder options sql = sql +:+ FindAll.orderText options.
Proof.
  unfold FindAll.addOrder, FindAll.orderText.
  destruct (FindAll.order options) as [o|]; [|now rewrite append_nil_r].
  destruct (FindAll.orderClauses o); simpl; [now rewrite append_nil_r | reflexivity].
Qed.

Lemma addBound_eq (keyword : string) (bound : option JsNumber) (sql : string) :
  FindAll.addBound keyword bound sql = sql +:+ FindAll.boundText keyword bound.
Proof.
  unfold FindAll.addBound, FindAll.boundText.
  destruct bound as [n|]; [|now rewrite append_nil_r].
  destruct (geZero n); [reflexivity | now rewrite append_nil_r].
Qed.

Lemma findAllQuery_eq (tableName : string) (options : FindAll.Options) :
  FindAll.findAllQuery safeGet convertValueForSQLite tableName options
  = ("SELECT * FROM " +:+ tableName
       +:+ FindAll.whereText safeGet convertValueForSQLite options
       +:+ FindAll.orderText options
       +:+ FindAll.boundText " LIMIT " (FindAll.limit options)
       +:+ FindAll.boundText " OFFSET " (FindAll.offset options),
     match FindAll.where_ options with
     | Some w => FindAll.boundValues safeGet convertValueForSQLite w (FindAll.whereKeys w)
     | None => []
     end).
Proof.
  unfold FindAll.findAllQuery. rewrite addWhere_eq.
  rewrite !addBound_eq, addOrder_eq. now rewrite !append_assoc.
Qed.

Lemma whereKeys_In (w : list (string * JsValue)) (key : string) :
  In key (FindAll.whereKeys w)
  <-> In key (map fst w) /\ FindAll.getProperty w key <> JsUndefined.
Proof.
  unfold FindAll.whereKeys. rewrite filter_In.
  split; intros [Hin H]; (split; [exact Hin|]).
  - intros E. rewrite E in H. discriminate.
  - now destruct (FindAll.getProperty w key).
Qed.

Lemma getProperty_In (w : list (string * JsValue)) (key : string) (v : JsValue) :
  NoDup (map fst w) -> In (key, v) w -> FindAll.getProperty w key = v.
Proof.
  induction w as [|[k x] w IH]; intros Hnd Hin; [destruct Hin|].
  simpl in Hnd. inversion Hnd as [|? ? Hnotin Hnd']; subst.
  simpl. destruct Hin as [Heq | Hin].
  - inversion Heq; subst. now rewrite String.eqb_refl.
  - destruct (String.eqb k key) eqn:E.
    + apply String.eqb_eq in E. subst k. exfalso. apply Hnotin.
      apply list_elem_of_In. apply in_map_iff. exists (key, v). auto.
    + apply IH; assumption.
Qed.

Lemma boundValues_no_null (w : list (string * JsValue)) (keys : list string) :
  ~ In JsNull (FindAll.boundValues safeGet convertValueForSQLite w keys).
Proof. unfold FindAll.boundValues. rewrite filter_In. intros [_ H]. discriminate. Qed.

Lemma boundText_emitted (keyword : string) (bound : option JsNumber) :
  FindAll.boundText keyword bound <> "" ->
  exists n, bound = Some n /\ geZero n = true
            /\ FindAll.boundText keyword bound = keyword +:+ numberToString n.
Proof.
  unfold FindAll.boundText. destruct bound as [n|]; [|congruence].
  destruct (geZero n) eqn:E; [|congruence].
  intros _. exists n. auto.
Qed.

(** C10.  The query of [findAll] is [SELECT * FROM] the table followed by
    the [WHERE], [ORDER BY], [LIMIT] and [OFFSET] texts.  The keys of the
    [WHERE] text are those whose value is not [undefined], so an entry
    with the value [undefined] gives no clause; a key whose converted
    value is [null] gives [key IS NULL] and binds no parameter; without a
    [where] object, or when no key is kept, there is no [WHERE] text; and
    a [LIMIT] or [OFFSET] text is there only if the option is defined and
    not negative. *)
Theorem find_all_query (tableName : string) (options : FindAll.Options) :
  FindAll.findAllQuery safeGet convertValueForSQLite tableName options
  = ("SELECT * FROM " +:+ tableName
       +:+ FindAll.whereText safeGet convertValueForSQLite options
       +:+ FindAll.orderText options
       +:+ FindAll.boundText " LIMIT " (FindAll.limit options)
       +:+ FindAll.boundText " OFFSET " (FindAll.offset options),
     match FindAll.where_ options with
     | Some w => FindAll.boundValues safeGet convertValueForSQLite w (FindAll.whereKeys w)
     | None => []
     end)
  /\ (forall w key,
        In key (FindAll.whereKeys w)
        <-> In key (map fst w) /\ FindAll.getProperty w key <> JsUndefined)
  /\ (forall w key,
        NoDup (map fst w) -> In (key, JsUndefined) w -> ~ In key (FindAll.whereKeys w))
  /\ (forall w key keys,
        isNull (convertValueForSQLite (safeGet w key)) = true ->
        FindAll.whereClause safeGet convertValueForSQLite w key = key +:+ " IS NULL"
        /\ FindAll.boundValues safeGet convertValueForSQLite w (key :: keys)
           = FindAll.boundValues safeGet convertValueForSQLite w keys)
  /\ (forall w keys,
        ~ In JsNull (FindAll.boundValues safeGet convertValueForSQLite w keys))
  /\ ((FindAll.where_ options = None
       \/ exists w, FindAll.where_ options = Some w /\ FindAll.whereKeys w = []) ->
      FindAll.whereText safeGet convertValueForSQLite options = "")
  /\ (forall keyword bound,
        FindAll.boundText keyword bound <> "" ->
        exists n, bound = Some n /\ geZero n = true
                  /\ FindAll.boundText keyword bound = keyword +:+ numberToString n).
Proof.
  split; [apply findAllQuery_eq|].
  split; [apply whereKeys_In|].
  split.
  { intros w key Hnd Hin Hkey. apply whereKeys_In in Hkey. destruct Hkey as [_ Hdef].
    apply Hdef. now apply getProperty_In. }
  split.
  { intros w key keys Hnull. unfold FindAll.whereClause, FindAll.boundValues.
    simpl. now rewrite Hnull. }
  split; [apply boundValues_no_null|].
  split.
  { unfold FindAll.whereText. intros [-> | [w [-> ->]]]; reflexivity. }
  apply boundText_emitted.
Qed.

(** ** Further properties of the query *)

Lemma countChar_app (c : ascii) (a b : string) :
  countChar c (a +:+ b) = countChar c a + countChar c b.
Proof.
  induction a as [|x a IH]; [reflexivity|].
  rewrite append_cons. simpl. rewrite IH. lia.
Qed.

Lemma list_sum_head (x : nat) (l : list nat) : list_sum (x :: l) = x + list_sum l.
Proof. reflexivity. Qed.

Lemma countChar_join (c : ascii) (sep : string) (l : list string) :
  countChar c sep = 0 ->
  countChar c (join sep l) = list_sum (map (countChar c) l).
Proof.
  intros Hsep. unfold join. induction l as [|x l IH]; [reflexivity|].
  destruct l as [|y l].
  - simpl. lia.
  - change (String.concat sep (x :: y :: l)) with (x +:+ sep +:+ String.concat sep (y :: l)).
    rewrite !countChar_app, Hsep, IH. cbn [map]. rewrite !list_sum_head. lia.
Qed.

Lemma countChar_uint (d : Decimal.uint) :
  countChar "?" (NilEmpty.string_of_uint d) = 0.
Proof. induction d; simpl; auto. Qed.

Lemma countChar_numberText (text : string) :
  isNumberText text = true -> countChar "?" text = 0.
Proof.
  induction text as [|c r IH]; [reflexivity|].
  simpl. intros H. apply andb_prop in H. destruct H as [Hc Hr].
  rewrite (IH Hr). destruct (Ascii.eqb_spec c "?") as [-> | _]; [discriminate Hc|].
  reflexivity.
Qed.

Lemma countChar_number (n : JsNumber) : countChar "?" (numberToString n) = 0.
Proof.
  destruct n as [z safe | | [|] | negative text wellFormed]; try reflexivity.
  - unfold numberToString, NilZero.string_of_int, NilZero.string_of_uint.
    destruct (Z.to_int z) as [d | d]; destruct d; try reflexivity;
      simpl; apply countChar_uint.
  - unfold numberToString. destruct negative.
    + rewrite countChar_app. now rewrite (countChar_numberText _ wellFormed).
    + apply countChar_numberText, wellFormed.
Qed.

Lemma countChar_boundText (keyword : string) (bound : option JsNumber) :
  countChar "?" keyword = 0 -> countChar "?" (FindAll.boundText keyword bound) = 0.
Proof.
  intros H. unfold FindAll.boundText. destruct bound as [n|]; [|reflexivity].
  destruct (geZero n); [|reflexivity].
  now rewrite countChar_app, H, countChar_number.
Qed.

Lemma countChar_whereClauses (w : list (string * JsValue)) (keys : list string) :
  (forall key, In key keys -> countChar "?" key = 0) ->
  list_sum (map (countChar "?")
                (map (FindAll.whereClause safeGet convertValueForSQLite w) keys))
  = length (FindAll.boundValues safeGet convertValueForSQLite w keys).
Proof.
  induction keys as [|key keys IH]; intros Hkeys; [reflexivity|].
  rewrite boundValues_cons, length_app. cbn [map]. rewrite list_sum_head.
  rewrite IH by (intros k Hk; apply Hkeys; now right).
  f_equal. unfold FindAll.whereClause, FindAll.boundValues. cbn [map List.filter].
  destruct (isNull (convertValueForSQLite (safeGet w key)));
    (rewrite countChar_app, (Hkeys key) by (now left)); reflexivity.
Qed.

Lemma countChar_whereText (options : FindAll.Options) :
  (forall w key, FindAll.where_ options = Some w -> In key (map fst w) ->
                 countChar "?" key = 0) ->
  countChar "?" (FindAll.whereText safeGet convertValueForSQLite options)
  = length (match FindAll.where_ options with
            | Some w => FindAll.boundValues safeGet convertValueForSQLite w
                          (FindAll.whereKeys w)
            | None => []
            end).
Proof.
  intros Hkeys. unfold FindAll.whereText.
  destruct (FindAll.where_ options) as [w|]; [|reflexivity].
  assert (H : forall key, In key (FindAll.whereKeys w) -> countChar "?" key = 0).
  { intros key Hin. apply (Hkeys w key eq_refl). now apply whereKeys_In in Hin. }
  pose proof (countChar_whereClauses w (FindAll.whereKeys w) H) as Hsum.
  destruct (FindAll.whereKeys w) as [|key keys]; [reflexivity|].
  rewrite countChar_app, countChar_join by reflexivity. rewrite Hsum. reflexivity.
Qed.

Lemma countChar_orderText (options : FindAll.Options) :
  (forall o col dir, FindAll.order options = Some o -> In (col, dir) o ->
                     countChar "?" col = 0) ->
  countChar "?" (FindAll.orderText options) = 0.
Proof.
  intros Hcols. unfold FindAll.orderText.
  destruct (FindAll.order options) as [o|]; [|reflexivity].
  assert (H : list_sum (map (countChar "?") (FindAll.orderClauses o)) = 0).
  { unfold FindAll.orderClauses. specialize (Hcols o).
    induction o as [|[col dir] o IH]; [reflexivity|].
    cbn [List.filter]. destruct (negb (String.eqb col "")).
    - cbn [map]. rewrite list_sum_head.
      rewrite IH by (intros c d _ Hin; apply (Hcols c d eq_refl); now right).
      rewrite !countChar_app, (Hcols col dir eq_refl) by (now left).
      now destruct (String.eqb dir "DESC").
    - apply IH. intros c d _ Hin. apply (Hcols c d eq_refl). now right. }
  destruct (FindAll.orderClauses o) as [|clause clauses]; [reflexivity|].
  rewrite countChar_app, countChar_join by reflexivity. rewrite H. reflexivity.
Qed.

(** X13.  The query has exactly as many placeholders [?] as bound
    parameters, provided the table name, the keys of [where] and the
    columns of [order] contain no question mark (they are copied into the
    text as they are). *)
Theorem placeholders_match_parameters (tableName : string) (options : FindAll.Options) :
  countChar "?" tableName = 0 ->
  (forall w key, FindAll.where_ options = Some w -> In key (map fst w) ->
                 countChar "?" key = 0) ->
  (forall o col dir, FindAll.order options = Some o -> In (col, dir) o ->
                     countChar "?" col = 0) ->
  countChar "?" (fst (FindAll.findAllQuery safeGet convertValueForSQLite tableName options))
  = length (snd (FindAll.findAllQuery safeGet convertValueForSQLite tableName options)).
Proof.
  intros Htable Hkeys Hcols. rewrite findAllQuery_eq. cbn [fst snd].
  rewrite !countChar_app, Htable, countChar_whereText by exact Hkeys.
  rewrite countChar_orderText by exact Hcols.
  rewrite !countChar_boundText by reflexivity. cbn [countChar]. simpl. lia.
Qed.

Lemma orderClauses_In (o : list (string * string)) (clause : string) :
  In clause (FindAll.orderClauses o)
  <-> exists col dir,
        In (col, dir) o /\ col <> ""
        /\ clause = col +:+ " " +:+ (if String.eqb dir "DESC" then "DESC" else "ASC").
Proof.
  unfold FindAll.orderClauses. rewrite in_map_iff. split.
  - intros [[col dir] [Hclause Hin]]. apply filter_In in Hin. destruct Hin as [Hin Hcol].
    exists col, dir. split; [exact Hin|]. split; [|now symmetry].
    intros ->. discriminate.
  - intros [col [dir [Hin [Hcol Hclause]]]]. exists (col, dir). split; [now symmetry|].
    apply filter_In. split; [exact Hin|].
    destruct (String.eqb col "") eqn:E; [|reflexivity].
    apply String.eqb_eq in E. contradiction.
Qed.

(** X14.  [ORDER BY]: an entry with an empty column is dropped; every
    other entry gives, in order, its column followed by [DESC] when the
    direction is exactly [DESC] and by [ASC] for any other direction; the
    text is absent when [order] is absent or no entry is kept. *)
Theorem order_by_clauses (options : FindAll.Options) :
  (forall o clause,
     In clause (FindAll.orderClauses o)
     <-> exists col dir,
           In (col, dir) o /\ col <> ""
           /\ clause = col +:+ " " +:+ (if String.eqb dir "DESC" then "DESC" else "ASC"))
  /\ (forall o,
        length (FindAll.orderClauses o)
        = length (List.filter (fun entry => negb (String.eqb (fst entry) "")) o))
  /\ (FindAll.order options = None -> FindAll.orderText options = "")
  /\ (forall o,
        FindAll.order options = Some o ->
        (forall col dir, In (col, dir) o -> col = "") ->
        FindAll.orderText options = "")
  /\ (forall o col dir,
        FindAll.order options = Some o -> In (col, dir) o -> col <> "" ->
        FindAll.orderText options = " ORDER BY " +:+ join ", " (FindAll.orderClauses o)).
Proof.
  split; [apply orderClauses_In|]. split.
  { intros o. unfold FindAll.orderClauses. rewrite length_map.
    induction o as [|[col dir] o IH]; [reflexivity|].
    simpl. destruct (negb (String.eqb col "")); simpl; now rewrite IH. }
  unfold FindAll.orderText. split; [now intros ->|]. split.
  - intros o -> Hempty.
    destruct (FindAll.orderClauses o) as [|clause clauses] eqn:E; [reflexivity|].
    assert (Hin : In clause (FindAll.orderClauses o)) by (rewrite E; now left).
    apply orderClauses_In in Hin. destruct Hin as [col [dir [Hin [Hcol _]]]].
    destruct (Hcol (Hempty col dir Hin)).
  - intros o col dir -> Hin Hcol.
    destruct (FindAll.orderClauses o) as [|clause clauses] eqn:E; [|reflexivity].
    assert (H : In (col +:+ " " +:+ (if String.eqb dir "DESC" then "DESC" else "ASC"))
                   (FindAll.orderClauses o)).
    { apply orderClauses_In. exists col, dir. auto. }
    rewrite E in H. destruct H.
Qed.

(** X15.  The bounds are appended independently of each other: an offset
    that is defined and not negative gives [OFFSET] even when no [LIMIT]
    was appended, directly after the [ORDER BY] text; when both are given,
    [LIMIT] precedes [OFFSET].  Each bound is written as the language
    converts the number to a string: a safe integer in decimal, [Infinity]
    as its name, any other finite number by its shortest round-trip text
    ([2.5], [1e+21]). *)
Theorem offset_independent_of_limit (tableName : string) (options : FindAll.Options)
    (m : JsNumber) :
  FindAll.offset options = Some m -> geZero m = true ->
  (FindAll.limit options = None
   \/ (exists n, FindAll.limit options = Some n /\ geZero n = false) ->
   fst (FindAll.findAllQuery safeGet convertValueForSQLite tableName options)
   = "SELECT * FROM " +:+ tableName
       +:+ FindAll.whereText safeGet convertValueForSQLite options
       +:+ FindAll.orderText options
       +:+ " OFFSET " +:+ numberToString m)
  /\ (forall n,
        FindAll.limit options = Some n -> geZero n = true ->
        fst (FindAll.findAllQuery safeGet convertValueForSQLite tableName options)
        = "SELECT * FROM " +:+ tableName
            +:+ FindAll.whereText safeGet convertValueForSQLite options
            +:+ FindAll.orderText options
            +:+ " LIMIT " +:+ numberToString n
            +:+ " OFFSET " +:+ numberToString m).
Proof.
  intros Hoffset Hm. rewrite findAllQuery_eq. cbn [fst].
  unfold FindAll.boundText. rewrite Hoffset, Hm. split.
  - intros [-> | [n [-> Hn]]]; [|rewrite Hn]; rewrite append_nil_l; reflexivity.
  - intros n -> Hn. rewrite Hn. rewrite !append_assoc. reflexivity.
Qed.

Lemma getProperty_value (w : list (string * JsValue)) (key : string) :
  FindAll.getProperty w key = JsUndefined \/ In (key, FindAll.getProperty w key) w.
Proof.
  induction w as [|[k v] w IH]; [now left|].
  simpl. destruct (String.eqb k key) eqn:E.
  - apply String.eqb_eq in E. subst k. right. now left.
  - destruct IH as [IH | IH]; [now left | right; now right].
Qed.

Lemma whereKeys_all_undefined (w : list (string * JsValue)) :
  (forall key value, In (key, value) w -> value = JsUndefined) ->
  FindAll.whereKeys w = [].
Proof.
  intros Hall. destruct (FindAll.whereKeys w) as [|key keys] eqn:E; [reflexivity|].
  assert (Hin : In key (FindAll.whereKeys w)) by (rewrite E; now left).
  apply whereKeys_In in Hin. destruct Hin as [_ Hdef].
  destruct (getProperty_value w key) as [H | H]; [contradiction|].
  apply Hall in H. contradiction.
Qed.

(** X16.  When [where] is absent, is an empty object or has only
    [undefined] values, [order] is absent or has only empty columns, and
    each bound is absent or fails [>= 0] (a negative number, [NaN]), the
    query is [SELECT * FROM] the table and nothing else, with no
    parameter. *)
Theorem query_without_conditions (tableName : string) (options : FindAll.Options) :
  (forall w key value,
     FindAll.where_ options = Some w -> In (key, value) w -> value = JsUndefined) ->
  (forall o col dir, FindAll.order options = Some o -> In (col, dir) o -> col = "") ->
  (forall n, FindAll.limit options = Some n -> geZero n = false) ->
  (forall n, FindAll.offset options = Some n -> geZero n = false) ->
  FindAll.findAllQuery safeGet convertValueForSQLite tableName options
  = ("SELECT * FROM " +:+ tableName, []).
Proof.
  intros Hwhere Horder Hlimit Hoffset. rewrite findAllQuery_eq.
  assert (Hw : FindAll.whereText safeGet convertValueForSQLite options = ""
               /\ match FindAll.where_ options with
                  | Some w => FindAll.boundValues safeGet convertValueForSQLite w
                                (FindAll.whereKeys w)
                  | None => []
                  end = []).
  { unfold FindAll.whereText. destruct (FindAll.where_ options) as [w|]; [|auto].
    rewrite (whereKeys_all_undefined w) by (intros k v; apply (Hwhere w k v eq_refl)).
    auto. }
  destruct Hw as [-> ->].
  assert (Ho : FindAll.orderText options = "").
  { unfold FindAll.orderText. destruct (FindAll.order options) as [o|]; [|reflexivity].
    destruct (FindAll.orderClauses o) as [|clause clauses] eqn:E; [reflexivity|].
    assert (Hin : In clause (FindAll.orderClauses o)) by (rewrite E; now left).
    apply orderClauses_In in Hin. destruct Hin as [col [dir [Hin [Hcol _]]]].
    destruct (Hcol (Horder o col dir eq_refl Hin)). }
  rewrite Ho.
  assert (Hb : forall keyword bound,
             (forall n, bound = Some n -> geZero n = false) ->
             FindAll.boundText keyword bound = "").
  { intros keyword [n|] H; [|reflexivity]. unfold FindAll.boundText.
    now rewrite (H n eq_refl). }
  rewrite (Hb " LIMIT " _ Hlimit), (Hb " OFFSET " _ Hoffset).
  now rewrite !append_nil_r.
Qed.

Lemma append_inj_l (a b c : string) : a +:+ b = a +:+ c -> b = c.
Proof.
  induction a as [|x a IH]; [auto|].
  rewrite !append_cons. intros H. injection H as H. auto.
Qed.

(** X19.  The parameters are bound in the order of the clauses that carry
    a placeholder: the bound values are the converted values of the keys
    whose clause is [key = ?], in the order of the keys, one for each. *)
Theorem parameters_follow_clauses (w : list (string * JsValue)) (keys : list string) :
  FindAll.boundValues safeGet convertValueForSQLite w keys
  = map (fun key => convertValueForSQLite (safeGet w key))
        (FindAll.placeholderKeys safeGet convertValueForSQLite w keys)
  /\ (forall key,
        In key keys ->
        (FindAll.whereClause safeGet convertValueForSQLite w key = key +:+ " = ?"
         <-> In key (FindAll.placeholderKeys safeGet convertValueForSQLite w keys)))
  /\ length (FindAll.boundValues safeGet convertValueForSQLite w keys)
     = length (FindAll.placeholderKeys safeGet convertValueForSQLite w keys).
Proof.
  assert (Hmap : FindAll.boundValues safeGet convertValueForSQLite w keys
                 = map (fun key => convertValueForSQLite (safeGet w key))
                       (FindAll.placeholderKeys safeGet convertValueForSQLite w keys)).
  { unfold FindAll.boundValues, FindAll.placeholderKeys.
    induction keys as [|key keys IH]; [reflexivity|].
    cbn [map List.filter].
    destruct (negb (isNull (convertValueForSQLite (safeGet w key))));
      cbn [map]; now rewrite IH. }
  split; [exact Hmap|]. split.
  - intros key Hin. unfold FindAll.whereClause, FindAll.placeholderKeys.
    rewrite filter_In.
    destruct (isNull (convertValueForSQLite (safeGet w key))); split.
    + intros H. apply append_inj_l in H. discriminate.
    + intros [_ H]. discriminate.
    + auto.
    + reflexivity.
  - rewrite Hmap. apply length_map.
Qed.

End FindAllFacts.

(** ** The calls of the driver *)

Section DatabaseFacts.

Variables Stmt Rows DriverError : Type.
Variable safeGet : list (string * JsValue) -> string -> JsValue.
Variable convertValueForSQLite : JsValue -> JsValue.
Variable db : Database.Driver Stmt Rows DriverError.

(** The statement is prepared once and run with the parameters, whether
    there are any or not. *)
Lemma prepareAndRun_eq (sql : string) (values : list JsValue) :
  Database.prepareAndRun db sql values
  = match Database.prepare db sql with
    | inl stmt => Database.all db stmt values
    | inr error => inr error
    end.
Proof.
  unfold Database.prepareAndRun. destruct (Database.prepare db sql); [|reflexivity].
  now destruct values.
Qed.

(** X17.  [findAll] prepares the query it built and runs it with the
    bound parameters.  When the driver returns rows, it returns them and
    logs nothing; when [prepare] or [all] throws, it logs once, the
    message [Error executing findAll query: ] followed by the query, with
    the parameters, and throws the same error again. *)
Theorem find_all_runs_query (modelDefinition : ModelDefinition)
    (options : FindAll.Options) :
  let query := FindAll.findAllQuery safeGet convertValueForSQLite
                 (tableName modelDefinition) options in
  let result := Database.createFindAllMethod safeGet convertValueForSQLite db
                  modelDefinition options in
  (forall rows,
     fst result = inl rows
     <-> exists stmt, Database.prepare db (fst query) = inl stmt
                      /\ Database.all db stmt (snd query) = inl rows)
  /\ (forall error,
        fst result = inr error
        <-> Database.prepare db (fst query) = inr error
            \/ exists stmt, Database.prepare db (fst query) = inl stmt
                            /\ Database.all db stmt (snd query) = inr error)
  /\ (forall rows, fst result = inl rows -> snd result = [])
  /\ (forall error,
        fst result = inr error ->
        snd result = [("Error executing findAll query: " +:+ fst query, snd query)]).
Proof.
  intros query result. subst query result. unfold Database.createFindAllMethod.
  destruct (FindAll.findAllQuery safeGet convertValueForSQLite
              (tableName modelDefinition) options) as [sql values].
  cbn [fst snd]. rewrite prepareAndRun_eq.
  destruct (Database.prepare db sql) as [stmt | e] eqn:Hp.
  - destruct (Database.all db stmt values) as [rows | e] eqn:Ha; cbn [fst snd].
    + repeat split.
      * intros H. exists stmt. split; [reflexivity|]. congruence.
      * intros [stmt' [Hs Hr]]. congruence.
      * discriminate.
      * intros [H | [stmt' [Hs Hr]]]; congruence.
      * discriminate.
    + repeat split.
      * discriminate.
      * intros [stmt' [Hs Hr]]. congruence.
      * intros H. right. exists stmt. split; [reflexivity|]. congruence.
      * intros [H | [stmt' [Hs Hr]]]; congruence.
      * discriminate.
  - cbn [fst snd]. repeat split.
    + discriminate.
    + intros [stmt' [Hs Hr]]. congruence.
    + intros H. left. congruence.
    + intros [H | [stmt' [Hs Hr]]]; congruence.
    + discriminate.
Qed.

(** X18.  [raw] settles as the driver does: the promise resolves with the
    rows the statement returns and rejects with the error that [prepare]
    or [all] throws.  [findAll] returns the rows with which [raw] resolves
    on the query and parameters that [findAll] builds, and throws the
    error with which it rejects. *)
Theorem raw_settles_as_driver (sql : string) (params : list JsValue) :
  (forall rows,
     Database.raw db sql params = Database.Resolved rows
     <-> exists stmt, Database.prepare db sql = inl stmt
                      /\ Database.all db stmt params = inl rows)
  /\ (forall error,
        Database.raw db sql params = Database.Rejected error
        <-> Database.prepare db sql = inr error
            \/ exists stmt, Database.prepare db sql = inl stmt
                            /\ Database.all db stmt params = inr error)
  /\ (forall modelDefinition options,
        FindAll.findAllQuery safeGet convertValueForSQLite
          (tableName modelDefinition) options = (sql, params) ->
        Database.raw db sql params
        = match fst (Database.createFindAllMethod safeGet convertValueForSQLite db
                       modelDefinition options) with
          | inl rows => Database.Resolved rows
          | inr error => Database.Rejected error
          end).
Proof.
  unfold Database.raw. rewrite prepareAndRun_eq. split; [|split].
  - intros rows. destruct (Database.prepare db sql) as [stmt | e] eqn:Hp.
    + destruct (Database.all db stmt params) as [r | e] eqn:Ha; split.
      * intros H. exists stmt. split; [reflexivity|]. congruence.
      * intros [stmt' [Hs Hr]]. congruence.
      * discriminate.
      * intros [stmt' [Hs Hr]]. congruence.
    + split; [discriminate|]. intros [stmt' [Hs Hr]]. congruence.
  - intros error. destruct (Database.prepare db sql) as [stmt | e] eqn:Hp.
    + destruct (Database.all db stmt params) as [r | e] eqn:Ha; split.
      * discriminate.
      * intros [H | [stmt' [Hs Hr]]]; congruence.
      * intros H. right. exists stmt. split; [reflexivity|]. congruence.
      * intros [H | [stmt' [Hs Hr]]]; congruence.
    + split; [intros H; left; congruence|].
      intros [H | [stmt' [Hs Hr]]]; congruence.
  - intros modelDefinition options Hq. unfold Database.createFindAllMethod.
    rewrite Hq, prepareAndRun_eq.
    destruct (Database.prepare db sql) as [stmt | e]; [|reflexivity].
    now destruct (Database.all db stmt params).
Qed.

End DatabaseFacts.

(** ** The properties on concrete definitions *)

Local Notation "'generate'" :=
  (generateCreateTableSQL Sample.snakeCase Sample.formatDefaultValue Sample.mapDataType)
  (only parsing).

(** A virtual option without [using]: the call returns, with the module
    name [undefined], although C1 expects it to throw. *)
Lemma virtual_without_using_returns :
  missingUsing Sample.withoutUsing = true
  /\ generate Sample.withoutUsing = Returned "CREATE VIRTUAL TABLE t USING undefined ()"
  /\ ~ (isThrown (generate Sample.withoutUsing) = true
        <-> missingUsing Sample.withoutUsing = true).
Proof.
  split; [reflexivity|]. split; [reflexivity|].
  intros [_ H]. specialize (H eq_refl). discriminate H.
Qed.

(** [options.primaryKey = 'other'] beside the flagged column [id]: the
    option is set and does not name [id], yet the column keeps its
    [PRIMARY KEY] clause, which C2 expects to be omitted. *)
Lemma column_key_kept_beside_other_key :
  In ("id", Sample.keyColumn) (attributes Sample.otherKey)
  /\ Attr.primaryKey Sample.keyColumn = true
  /\ primaryKeyParts Sample.otherKey Sample.keyColumn = ["PRIMARY KEY"]
  /\ generate Sample.otherKey
     = Returned "CREATE TABLE t (id INTEGER PRIMARY KEY, other INTEGER, PRIMARY KEY (other))"
  /\ ~ (primaryKeyParts Sample.otherKey Sample.keyColumn = []
        <-> optionProp Options.primaryKey Sample.otherKey <> None
            /\ namesColumn Sample.otherKey "id" = false).
Proof.
  split; [now left|]. split; [reflexivity|]. split; [reflexivity|]. split; [reflexivity|].
  intros [_ H]. assert (E : primaryKeyParts Sample.otherKey Sample.keyColumn = []).
  { apply H. split; [discriminate | reflexivity]. }
  discriminate E.
Qed.

(** [options.primaryKey = ['a', 'b']] together with a virtual option: the
    statement is that of the virtual table and has no [PRIMARY KEY (a, b)],
    which C4 expects in the output of every such definition. *)
Lemma composite_key_of_virtual_table_absent :
  optionProp Options.primaryKey Sample.compositeVirtual = Some (PkColumns ["a"; "b"])
  /\ attributePrimaryKey (attributes Sample.compositeVirtual) "a" = false
  /\ attributePrimaryKey (attributes Sample.compositeVirtual) "b" = false
  /\ generate Sample.compositeVirtual = Returned "CREATE VIRTUAL TABLE t USING fts5 ()"
  /\ contains "PRIMARY KEY (a, b)" "CREATE VIRTUAL TABLE t USING fts5 ()" = false.
Proof. repeat split; reflexivity. Qed.

Lemma generator_never_throws_witness :
  generate Sample.withoutUsing = Returned "CREATE VIRTUAL TABLE t USING undefined ()".
Proof.
  exact (proj1 (proj2 (generator_never_throws Sample.snakeCase Sample.formatDefaultValue
                         Sample.mapDataType Sample.withoutUsing))
               {| Virtual.using_ := None; Virtual.args := None |} eq_refl eq_refl).
Defined.

(** A table name is copied as it is given: with a parenthesis in it the
    statement has two outermost parenthesized groups.  A parenthesis
    inside a quoted literal of a [CHECK] expression leaves the statement
    without a matching of its parentheses at all. *)
Lemma parenthesized_name_two_groups :
  optionProp Options.virtual Sample.parenthesizedName = None
  /\ generate Sample.parenthesizedName = Returned "CREATE TABLE t (x) (a INTEGER)"
  /\ topLevelGroups "CREATE TABLE t (x) (a INTEGER)" = Some 2
  /\ optionProp Options.virtual Sample.quotedParenthesis = None
  /\ generate Sample.quotedParenthesis
     = Returned "CREATE TABLE t (a TEXT CHECK (a <> ')'))"
  /\ topLevelGroups "CREATE TABLE t (a TEXT CHECK (a <> ')'))" = None.
Proof. repeat split. Qed.

Lemma create_table_shape_witness :
  exists sql : string,
    generate Sample.users = Returned sql
    /\ String.prefix "CREATE TABLE" sql = true
    /\ topLevelGroups sql = Some 1.
Proof.
  destruct (create_table_shape Sample.snakeCase Sample.formatDefaultValue
              Sample.mapDataType Sample.users eq_refl)
    as (sql & Hgen & Hprefix & _ & _ & Hgroups).
  exists sql. split; [exact Hgen|]. split; [exact Hprefix|].
  apply Hgroups; [reflexivity | exists 0; reflexivity].
Defined.

Lemma users_statement_witness :
  generate Sample.users = Returned "CREATE TABLE Users (id TEXT PRIMARY KEY NOT NULL)".
Proof.
  exact (users_statement Sample.snakeCase Sample.formatDefaultValue Sample.mapDataType
           eq_refl).
Defined.

Lemma virtual_table_statement_witness :
  generate Sample.documents = Returned "CREATE VIRTUAL TABLE t USING fts5 (title, body)".
Proof.
  exact (proj1 (virtual_table_statement Sample.snakeCase Sample.formatDefaultValue
                  Sample.mapDataType Sample.documents
                  {| Virtual.using_ := Some "fts5"; Virtual.args := Some ["title"; "body"] |}
                  eq_refl eq_refl)
               eq_refl eq_refl).
Defined.

Lemma column_primary_key_witness :
  primaryKeyParts Sample.composite Sample.keyColumn = []
  /\ primaryKeyParts Sample.otherKey Sample.keyColumn = ["PRIMARY KEY"].
Proof.
  split.
  - apply (proj1 (column_primary_key Sample.snakeCase Sample.formatDefaultValue
                    Sample.mapDataType Sample.composite "id" Sample.keyColumn eq_refl)).
    exists ["a"; "b"]. reflexivity.
  - apply (proj1 (proj2 (column_primary_key Sample.snakeCase Sample.formatDefaultValue
                           Sample.mapDataType Sample.otherKey "id" Sample.keyColumn eq_refl))).
    intros cols. discriminate.
Defined.

Lemma underscored_key_emitted_twice_witness :
  generate Sample.underscoredKey
  = Returned "CREATE TABLE t (user_id INTEGER PRIMARY KEY, PRIMARY KEY (user_id))".
Proof.
  exact (proj2 (proj2 (proj2 (underscored_key_emitted_twice Sample.snakeCase
                                Sample.formatDefaultValue Sample.mapDataType eq_refl)))).
Defined.

Lemma composite_primary_key_witness :
  count_occ string_dec (snd (columnsAndConstraints Sample.snakeCase Sample.formatDefaultValue
                               Sample.mapDataType Sample.composite))
            "PRIMARY KEY (a, b)" = 1.
Proof.
  exact (proj1 (composite_primary_key Sample.snakeCase Sample.formatDefaultValue
                  Sample.mapDataType Sample.composite eq_refl eq_refl)).
Defined.


Lemma generator_deterministic_witness :
  exists (out : Outcome string) (h1 h2 : gmap positive Cell),
    generateCreateTableSQLOn Sample.snakeCase Sample.formatDefaultValue Sample.mapDataType
      1%positive {[ 1%positive := DefinitionCell Sample.users ]} = (out, h1)
    /\ generateCreateTableSQLOn Sample.snakeCase Sample.formatDefaultValue
         Sample.mapDataType 1%positive h1 = (out, h2)
    /\ out = Value "CREATE TABLE Users (id TEXT PRIMARY KEY NOT NULL)".
Proof.
  destruct (generator_deterministic Sample.snakeCase Sample.formatDefaultValue
              Sample.mapDataType 1%positive {[ 1%positive := DefinitionCell Sample.users ]}
              Sample.users (lookup_singleton_eq _ _))
    as (out & h1 & h2 & Hrun1 & Hrun2 & Hout & _).
  exists out, h1, h2. split; [exact Hrun1|]. split; [exact Hrun2|]. exact Hout.
Defined.

Lemma find_all_query_witness :
  FindAll.findAllQuery Sample.safeGet Sample.convertValueForSQLite "Users"
    {| FindAll.where_ := Some [("a", JsUndefined); ("b", JsNull); ("c", JsString "x")];
       FindAll.order := None;
       FindAll.limit := Some (NumInt 10 eq_refl);
       FindAll.offset := Some (NumInt (-1) eq_refl) |}
  = ("SELECT * FROM Users WHERE b IS NULL AND c = ? LIMIT 10", [JsString "x"]).
Proof.
  exact (proj1 (find_all_query Sample.safeGet Sample.convertValueForSQLite "Users"
                  {| FindAll.where_ :=
                       Some [("a", JsUndefined); ("b", JsNull); ("c", JsString "x")];
                     FindAll.order := None;
                     FindAll.limit := Some (NumInt 10 eq_refl);
                     FindAll.offset := Some (NumInt (-1) eq_refl) |})).
Defined.

(** ** The further properties on concrete inputs *)

Lemma if_not_exists_position_witness :
  exists sql : string,
    generate Sample.orders = Returned sql
    /\ String.prefix "CREATE TABLE IF NOT EXISTS Orders (" sql = true.
Proof.
  eexists. split; [reflexivity|].
  apply (proj1 (proj1 (if_not_exists_position Sample.snakeCase Sample.formatDefaultValue
                         Sample.mapDataType Sample.orders _ eq_refl) eq_refl) eq_refl).
Defined.

Lemma virtual_table_ignores_columns_witness :
  generate Sample.compositeVirtual
  = generate {| tableName := "t"; attributes := [];
                options :=
                  Some (Sample.keyOptions (PkName "id")
                          (Some {| Virtual.using_ := Some "fts5";
                                   Virtual.args := None |})) |}.
Proof.
  exact (virtual_table_ignores_columns Sample.snakeCase Sample.formatDefaultValue
           Sample.mapDataType Sample.compositeVirtual
           {| tableName := "t"; attributes := [];
              options :=
                Some (Sample.keyOptions (PkName "id")
                        (Some {| Virtual.using_ := Some "fts5";
                                 Virtual.args := None |})) |}
           {| Virtual.using_ := Some "fts5"; Virtual.args := None |}
           eq_refl eq_refl eq_refl eq_refl).
Defined.

Lemma statement_not_padded_witness :
  exists sql : string,
    generate Sample.orders = Returned sql
    /\ String.prefix "CREATE " sql = true /\ noTrailingSpace sql.
Proof.
  eexists. split; [reflexivity|].
  apply (statement_not_padded Sample.snakeCase Sample.formatDefaultValue
           Sample.mapDataType Sample.orders _ eq_refl).
Defined.

Lemma table_modifiers_witness :
  generate Sample.orders
  = Returned ("CREATE TABLE IF NOT EXISTS Orders (id INTEGER PRIMARY KEY AUTOINCREMENT, "
                +:+ "owner INTEGER NOT NULL, code TEXT COLLATE NOCASE, "
                +:+ "CONSTRAINT uq_code UNIQUE (code), "
                +:+ "CONSTRAINT uq_pair UNIQUE (owner, code), "
                +:+ "CONSTRAINT ck_owner CHECK (owner > 0), "
                +:+ "CONSTRAINT fk_owner FOREIGN KEY (owner) REFERENCES Users(id)) STRICT").
Proof.
  exact (table_modifiers Sample.snakeCase Sample.formatDefaultValue Sample.mapDataType
           Sample.orders eq_refl).
Defined.

Lemma clauses_in_statement_witness :
  exists sql : string,
    generate Sample.orders = Returned sql
    /\ contains "owner INTEGER NOT NULL" sql = true.
Proof.
  apply (clauses_in_statement Sample.snakeCase Sample.formatDefaultValue
           Sample.mapDataType Sample.orders "owner INTEGER NOT NULL" eq_refl).
  right. left. reflexivity.
Defined.

Lemma option_constraints_count_witness :
  length (optionConstraints Sample.orders) = 1 + 1 + 1.
Proof. exact (option_constraints_count Sample.orders _ eq_refl). Defined.

Lemma sample_names_distinct : NoDup (map fst (attributes Sample.otherKey)).
Proof.
  simpl. apply NoDup_cons_2.
  - intros H. apply list_elem_of_In in H. destruct H as [H | []]. discriminate H.
  - apply NoDup_cons_2; [|apply NoDup_nil_2].
    intros H. apply list_elem_of_In in H. destruct H.
Defined.

Lemma primary_key_once_per_attribute_witness :
  length (primaryKeyConstraint Sample.otherKey) <= 1.
Proof.
  exact (proj1 (primary_key_once_per_attribute Sample.otherKey sample_names_distinct)).
Defined.

Lemma placeholders_match_parameters_witness :
  countChar "?" (fst (FindAll.findAllQuery Sample.safeGet Sample.convertValueForSQLite
                        "Users" Sample.filtered))
  = length (snd (FindAll.findAllQuery Sample.safeGet Sample.convertValueForSQLite
                   "Users" Sample.filtered)).
Proof.
  apply (placeholders_match_parameters Sample.safeGet Sample.convertValueForSQLite
           "Users" Sample.filtered eq_refl).
  - intros w key Hw Hin. injection Hw as <-. simpl in Hin.
    destruct Hin as [<- | [<- | [<- | []]]]; reflexivity.
  - intros o col dir Ho Hin. injection Ho as <-. simpl in Hin.
    destruct Hin as [H | [H | []]]; injection H as <- _; reflexivity.
Defined.

Lemma offset_independent_of_limit_witness :
  fst (FindAll.findAllQuery Sample.safeGet Sample.convertValueForSQLite
         "Users" Sample.filtered)
  = "SELECT * FROM Users WHERE b IS NULL AND c = ? ORDER BY c DESC OFFSET 5"
  /\ fst (FindAll.findAllQuery Sample.safeGet Sample.convertValueForSQLite
            "Users" Sample.beyondIntegers)
     = "SELECT * FROM Users LIMIT 2.5 OFFSET 1e+21".
Proof.
  split.
  - exact (proj1 (offset_independent_of_limit Sample.safeGet Sample.convertValueForSQLite
                    "Users" Sample.filtered (NumInt 5 eq_refl) eq_refl eq_refl)
                 (or_introl eq_refl)).
  - exact (proj2 (offset_independent_of_limit Sample.safeGet Sample.convertValueForSQLite
                    "Users" Sample.beyondIntegers (NumFinite false "1e+21" eq_refl)
                    eq_refl eq_refl)
                 (NumFinite false "2.5" eq_refl) eq_refl eq_refl).
Defined.

Lemma query_without_conditions_witness :
  FindAll.findAllQuery Sample.safeGet Sample.convertValueForSQLite
    "Users" Sample.unfiltered
  = ("SELECT * FROM Users", []).
Proof.
  apply (query_without_conditions Sample.safeGet Sample.convertValueForSQLite
           "Users" Sample.unfiltered).
  - intros w key value Hw Hin. injection Hw as <-. simpl in Hin.
    destruct Hin as [H | []]. now injection H as _ <-.
  - intros o col dir Ho Hin. injection Ho as <-. simpl in Hin.
    destruct Hin as [H | []]. now injection H as <- _.
  - intros n Hn. injection Hn as <-. reflexivity.
  - intros n Hn. injection Hn as <-. reflexivity.
Defined.

Lemma empty_clause_list_witness :
  generate {| tableName := "Empty"; attributes := []; options := None |}
  = Returned "CREATE TABLE Empty ()".
Proof.
  exact (empty_clause_list Sample.snakeCase Sample.formatDefaultValue Sample.mapDataType
           {| tableName := "Empty"; attributes := []; options := None |}
           eq_refl eq_refl eq_refl eq_refl).
Defined.

Lemma calls_do_not_interfere_witness :
  exists h1 h2 : gmap positive Cell,
    generateCreateTableSQLOn Sample.snakeCase Sample.formatDefaultValue Sample.mapDataType
      1%positive
      (<[1%positive := DefinitionCell Sample.users]>
         {[ 2%positive := DefinitionCell Sample.documents ]})
    = (Value "CREATE TABLE Users (id TEXT PRIMARY KEY NOT NULL)", h1)
    /\ generateCreateTableSQLOn Sample.snakeCase Sample.formatDefaultValue
         Sample.mapDataType 2%positive h1
       = (Value "CREATE VIRTUAL TABLE t USING fts5 (title, body)", h2).
Proof.
  destruct (calls_do_not_interfere Sample.snakeCase Sample.formatDefaultValue
              Sample.mapDataType 1%positive 2%positive
              (<[1%positive := DefinitionCell Sample.users]>
                 {[ 2%positive := DefinitionCell Sample.documents ]})
              Sample.users Sample.documents
              (lookup_insert_eq _ _ _)
              (eq_trans (lookup_insert_ne _ 1%positive 2%positive _ (Pos.succ_discr 1))
                        (lookup_singleton_eq _ _)))
    as (h1 & h2 & Hrun1 & Hrun2 & _).
  exists h1, h2. split; [exact Hrun1 | exact Hrun2].
Defined.
